(** * Mobile price prediction: feature cleaning, processor-speed resolution,
      training and serving pipelines

    A shallow embedding of [src/pipelines/training_pipeline.py],
    [src/pipelines/prediction_pipeline.py], [src/application.py] and
    [src/exceptions.py], with the properties of the specification stated
    and settled against it.

    Conventions.
    - A Python [str] is a sequence of Unicode code points ([list N]); the
      rupee sign U+20B9 is one code point, not three bytes.
    - A Python [float] is modelled by the exact rational value of its
      decimal numeral ([Q]); binary rounding is not modelled.  [NaN] and
      the infinities are separate constructors of [pyfloat].
    - A [dict] literal iterated with [.items()] is an association list in
      insertion order; a JSON request body, the rows of a frame and the
      files under [artifacts/] are [gmap]s.
    - A call that may raise returns a [result]; the calls a prediction
      makes are recorded in order in a trace.  Logging and printing are
      not modelled.
    - numpy, pandas and scikit-learn are not part of the sources; the
      few operations the pipelines call are modelled after the libraries'
      documented behaviour, each with a comment that says so. *)

From Stdlib Require Import ZArith NArith QArith List Ascii String Lia Bool.
From Stdlib Require Import DecimalString DecimalPos.
From stdpp Require Import gmap list.

Local Open Scope N_scope.

(** ** Python strings *)

Module PyStr.

Abbreviation codepoint := N.
Abbreviation pystr := (list N).

(** An ASCII literal of the source as a code point sequence. *)
Definition str (s : string) : pystr :=
  map N_of_ascii (list_ascii_of_string s).

(** [str.lower()] on one code point.  Besides A-Z, exactly two code
    points outside ASCII lower to something that contains an ASCII code
    point: U+0130 (to "i" followed by U+0307) and U+212A (to "k").  All
    other code points outside ASCII lower to code points outside ASCII;
    they are kept as they are, which does not change whether an
    all-ASCII key occurs in the result. *)
Definition lower_char (c : codepoint) : pystr :=
  if (65 <=? c) && (c <=? 90) then [c + 32]
  else if c =? 304 then [105; 775]
  else if c =? 8490 then [107]
  else [c].

Definition lower (s : pystr) : pystr := flat_map lower_char s.

(** [s.startswith(p)] *)
Fixpoint startswith (p s : pystr) : bool :=
  match p, s with
  | [], _ => true
  | _ :: _, [] => false
  | c :: p', d :: s' => (c =? d) && startswith p' s'
  end.

(** [p in s]: substring containment. *)
Fixpoint contains (p s : pystr) : bool :=
  startswith p s ||
  match s with
  | [] => false
  | _ :: s' => contains p s'
  end.

(** The relation that [contains] decides. *)
Definition is_substring (p s : pystr) : Prop :=
  exists l r, s = l ++ p ++ r.

(** [s.replace(old, new)] for a non-empty [old]: one left-to-right pass
    over non-overlapping occurrences; [skip] counts the code points of
    an occurrence that are still to be dropped. *)
Fixpoint replace_from (old new : pystr) (skip : nat) (s : pystr) : pystr :=
  match s with
  | [] => []
  | c :: s' =>
    match skip with
    | S k => replace_from old new k s'
    | O =>
      if startswith old s
      then new ++ replace_from old new (length old - 1) s'
      else c :: replace_from old new 0 s'
    end
  end.

(** [s.replace(old, new)]; with an empty [old] Python puts [new] before
    every code point and at the end. *)
Definition replace (old new s : pystr) : pystr :=
  match old with
  | [] => new ++ flat_map (fun c => c :: new) s
  | _ :: _ => replace_from old new 0 s
  end.

(** Truth value of a string: [if unit:] *)
Definition truthy (s : pystr) : bool :=
  match s with [] => false | _ :: _ => true end.

(** Longest prefix of [s] whose code points satisfy [f], and the rest. *)
Fixpoint span (f : codepoint -> bool) (s : pystr) : pystr * pystr :=
  match s with
  | [] => ([], [])
  | c :: s' =>
    if f c then let '(a, b) := span f s' in (c :: a, b) else ([], s)
  end.

Definition is_digit (c : codepoint) : bool := (48 <=? c) && (c <=? 57).

(** C [isspace] on ASCII: space, tab, newline, vertical tab, form feed,
    carriage return. *)
Definition is_space_ascii (c : codepoint) : bool :=
  (c =? 32) || ((9 <=? c) && (c <=? 13)).

(** The code points the regular expression class [\s] matches on a
    [str] pattern (Unicode white space). *)
Definition is_space_unicode (c : codepoint) : bool :=
  ((9 <=? c) && (c <=? 13)) || ((28 <=? c) && (c <=? 32)) ||
  (c =? 133) || (c =? 160) || (c =? 5760) ||
  ((8192 <=? c) && (c <=? 8202)) || (c =? 8232) || (c =? 8233) ||
  (c =? 8239) || (c =? 8287) || (c =? 12288).

Definition lstrip (s : pystr) : pystr := snd (span is_space_ascii s).
Definition rstrip (s : pystr) : pystr := rev (lstrip (rev s)).
Definition strip (s : pystr) : pystr := rstrip (lstrip s).

(** [re.sub(cls, '', s)] for a one-character class [cls]: every code
    point of the class is removed. *)
Definition remove_class (cls : codepoint -> bool) (s : pystr) : pystr :=
  List.filter (fun c => negb (cls c)) s.

(** [str(n)] for an [int]. *)
Definition int_str (z : Z) : pystr :=
  str (NilZero.string_of_int (Z.to_int z)).

End PyStr.
Import PyStr.

(** ** Floats *)

Inductive pyfloat : Type :=
| NaN : pyfloat
| Inf (negative : bool) : pyfloat
| Num (q : Q) : pyfloat.

Definition isnull (x : pyfloat) : bool :=
  match x with NaN => true | _ => false end.

(** Equality of float values: the same special value, or equal numbers. *)
Definition feq (x y : pyfloat) : Prop :=
  match x, y with
  | NaN, NaN => True
  | Inf a, Inf b => a = b
  | Num p, Num q => (p == q)%Q
  | _, _ => False
  end.

(** *** Reading a float from text *)

Definition digits_value (ds : pystr) : Z :=
  fold_left (fun acc d => (10 * acc + Z.of_N (d - 48))%Z) ds 0%Z.

Definition pow10 (e : Z) : Q :=
  if (0 <=? e)%Z then inject_Z (10 ^ e) else (1 # Z.to_pos (10 ^ (- e)))%Q.

(** An optional sign: "-" or "+". *)
Definition take_sign (s : pystr) : bool * pystr :=
  match s with
  | 45 :: t => (true, t)
  | 43 :: t => (false, t)
  | _ => (false, s)
  end.

Definition decimal_value (neg : bool) (ip fp : pystr) (e : Z) : Q :=
  Qred ((if neg then (-1) else 1) * inject_Z (digits_value (ip ++ fp)) *
        pow10 (e - Z.of_nat (length fp)))%Q.

(** A decimal numeral: optional sign, digits with an optional fraction
    (at least one digit in all), optional exponent [e] or [E] with an
    optional sign and at least one digit; nothing may follow. *)
Definition parse_numeral (s : pystr) : option Q :=
  let '(neg, s1) := take_sign s in
  let '(ip, s2) := span is_digit s1 in
  let '(fp, s3) :=
    match s2 with
    | 46 :: t => span is_digit t
    | _ => ([], s2)
    end in
  if (length ip + length fp =? 0)%nat then None
  else
    match s3 with
    | [] => Some (decimal_value neg ip fp 0)
    | c :: t =>
      if (c =? 101) || (c =? 69) then
        let '(eneg, t1) := take_sign t in
        let '(ed, t2) := span is_digit t1 in
        match ed, t2 with
        | _ :: _, [] =>
          Some (decimal_value neg ip fp
                  (if eneg then (- digits_value ed)%Z else digits_value ed))
        | _, _ => None
        end
      else None
    end.

(** The words read as special values, in any letter case. *)
Definition parse_word (s : pystr) : option pyfloat :=
  let w := lower s in
  if bool_decide (w = str "nan") then Some NaN
  else if bool_decide (w = str "inf") || bool_decide (w = str "+inf")
       || bool_decide (w = str "infinity") || bool_decide (w = str "+infinity")
  then Some (Inf false)
  else if bool_decide (w = str "-inf") || bool_decide (w = str "-infinity")
  then Some (Inf true)
  else None.

(** Text to float, as the string-to-double conversions of pandas
    ([pd.to_numeric]) and numpy ([astype(float)]) read it: a decimal
    numeral with ASCII white space around it allowed, or one of the
    special words.  [None]: the text is not a number.  The value is the
    exact rational of the numeral. *)
Definition parse_float (s : pystr) : option pyfloat :=
  match parse_numeral (strip s) with
  | Some q => Some (Num q)
  | None => parse_word s
  end.

(** [pd.to_numeric(_, errors='coerce')] on one string: text that is not
    a number becomes [NaN]. *)
Definition to_numeric_coerce (s : pystr) : pyfloat :=
  match parse_float s with
  | Some x => x
  | None => NaN
  end.

(** *** Writing a float as text *)

(** Digits of the fraction [r / d] by long division, at most [fuel]. *)
Fixpoint frac_digits (fuel : nat) (r d : Z) : pystr :=
  match fuel with
  | O => []
  | S k =>
    if (r =? 0)%Z then []
    else (48 + Z.to_N (10 * r / d)) :: frac_digits k ((10 * r) mod d)%Z d
  end.

(** [str(x)] for a float, in positional notation: the integer part, a
    point, and the fraction digits (one "0" when there are none).  This
    is Python's shortest representation for the values that occur here
    (at most 17 significant digits, magnitude between 1e-4 and 1e16);
    exponent notation is not modelled. *)
Definition float_str (x : pyfloat) : pystr :=
  match x with
  | NaN => str "nan"
  | Inf false => str "inf"
  | Inf true => str "-inf"
  | Num q =>
    let n := Z.abs (Qnum q) in
    let d := Zpos (Qden q) in
    (if (Qnum q <? 0)%Z then str "-" else []) ++
    int_str (n / d) ++ str "." ++
    match frac_digits 17 (n mod d) d with
    | [] => str "0"
    | ds => ds
    end
  end.

(** ** Exceptions, results and the trace of library calls *)

(** [src/exceptions.py]: [CustomException(error_message)], whose [str]
    is [error_message] (no [error_detail] is passed anywhere in the
    serving path); any other Python exception is kept with its class
    name and its [str]. *)
Inductive exception : Type :=
| CustomException (error_message : pystr)
| PyError (class_name message : pystr).

(** [str(e)] *)
Definition exc_str (e : exception) : pystr :=
  match e with
  | CustomException error_message => error_message
  | PyError _ message => message
  end.

(** [isinstance(e, FileNotFoundError)] *)
Definition is_FileNotFoundError (e : exception) : bool :=
  match e with
  | PyError class_name _ => bool_decide (class_name = str "FileNotFoundError")
  | CustomException _ => false
  end.

(** The exceptions Python and the libraries raise in these pipelines. *)
Definition AttributeError (class_name attribute : pystr) : exception :=
  PyError (str "AttributeError")
    (str "'" ++ class_name ++ str "' object has no attribute '" ++
     attribute ++ str "'").

Definition ValueError (message : pystr) : exception :=
  PyError (str "ValueError") message.

Inductive result (A : Type) : Type :=
| Ok (x : A)
| Raise (e : exception).
Arguments Ok {A} x.
Arguments Raise {A} e.

(** What [sys.exc_info()] holds when [error_detail] (the [sys] module)
    is passed: the file name and line number of the traceback of the
    exception being handled, or no traceback outside an [except]
    block. *)
Definition exc_info : Type := option (pystr * Z).

(** [error_message_details(error, error_detail)] of [src/exceptions.py];
    without a traceback the attribute [tb_frame] is asked of [None]. *)
Definition error_message_details (error : pystr) (error_detail : option exc_info)
  : result pystr :=
  match error_detail with
  | None => Ok error
  | Some None => Raise (AttributeError (str "NoneType") (str "tb_frame"))
  | Some (Some (file_name, line_number)) =>
    Ok (str "Error occurred in Python script: [" ++ file_name ++
        str "] line number: [" ++ int_str line_number ++
        str "] error message: [" ++ error ++ str "]")
  end.

(** [CustomException(error_message, error_detail)]: the exception
    built, or the exception its constructor raises. *)
Definition new_CustomException (error_message : pystr) (error_detail : option exc_info)
  : result exception :=
  match error_detail with
  | None => Ok (CustomException error_message)
  | Some _ =>
    match error_message_details error_message error_detail with
    | Ok message => Ok (CustomException message)
    | Raise e => Raise e
    end
  end.

(** ** numpy arrays *)

(** numpy is not part of the sources.  [np.array] on a list that mixes
    numbers and strings gives a unicode array whose width is the largest
    the elements ask for: an [int64] promotes to width 21, a [float64]
    to width 32, a string to its length.  Assigning a float to an
    element of a unicode array stores [str] of the float, cut to the
    width without a warning. *)

(** The field values of a request: JSON numbers and strings. *)
Inductive pyval : Type :=
| PInt (z : Z)
| PFloat (x : pyfloat)
| PStr (s : pystr).

(** [str(v)] *)
Definition py_str (v : pyval) : pystr :=
  match v with
  | PInt z => int_str z
  | PFloat x => float_str x
  | PStr s => s
  end.

Definition is_PStr (v : pyval) : bool :=
  match v with PStr _ => true | _ => false end.

Definition is_PFloat (v : pyval) : bool :=
  match v with PFloat _ => true | _ => false end.

(** A one-dimensional array: fixed-width unicode (dtype [<U width]),
    [int64] or [float64]. *)
Inductive ndarray : Type :=
| StrArray (width : nat) (items : list pystr)
| IntArray (items : list Z)
| FloatArray (items : list pyfloat).

(** The width an element asks of a unicode array: its length for a
    string, 21 for an [int64], 32 for a [float64]. *)
Definition item_width (v : pyval) : nat :=
  match v with
  | PStr s => length s
  | PInt _ => 21%nat
  | PFloat _ => 32%nat
  end.

Definition max_width (vals : list pyval) : nat :=
  fold_right Nat.max 1%nat (map item_width vals).

Definition to_float (v : pyval) : pyfloat :=
  match v with
  | PInt z => Num (inject_Z z)
  | PFloat x => x
  | PStr _ => NaN
  end.

Definition to_int (v : pyval) : Z :=
  match v with
  | PInt z => z
  | _ => 0%Z
  end.

(** [np.array(vals)] for a flat list of numbers and strings, the
    integers within [int64].  One string makes the whole array a
    unicode array, in which every element is stored as its text, cut
    to the width of the array. *)
Definition np_array (vals : list pyval) : ndarray :=
  if existsb is_PStr vals then
    let w := max_width vals in
    StrArray w (map (fun v => take w (py_str v)) vals)
  else if existsb is_PFloat vals || bool_decide (vals = [])
  then FloatArray (map to_float vals)
  else IntArray (map to_int vals).

(** An element read from an array. *)
Inductive npscalar : Type :=
| NpStr (s : pystr)
| NpInt (z : Z)
| NpFloat (x : pyfloat).

Definition array_size (a : ndarray) : nat :=
  match a with
  | StrArray _ items => length items
  | IntArray items => length items
  | FloatArray items => length items
  end.

Definition IndexError (i size : nat) : exception :=
  PyError (str "IndexError")
    (str "index " ++ int_str (Z.of_nat i) ++
     str " is out of bounds for axis 0 with size " ++
     int_str (Z.of_nat size)).

(** [a[i]] *)
Definition getitem (a : ndarray) (i : nat) : result npscalar :=
  let found :=
    match a with
    | StrArray _ items => NpStr <$> items !! i
    | IntArray items => NpInt <$> items !! i
    | FloatArray items => NpFloat <$> items !! i
    end in
  match found with
  | Some x => Ok x
  | None => Raise (IndexError i (array_size a))
  end.

(** [a[i] = x] for a Python float [x], in place, [i] in range: a
    unicode array stores the text of [x] cut to its width, an integer
    array the integer part of [x]. *)
Definition setitem_float (a : ndarray) (i : nat) (x : Q) : ndarray :=
  match a with
  | StrArray w items => StrArray w (<[i := take w (float_str (Num x))]> items)
  | IntArray items => IntArray (<[i := (Qnum x ÷ Zpos (Qden x))%Z]> items)
  | FloatArray items => FloatArray (<[i := Num x]> items)
  end.

(** The conversion of one array to [float64] that scikit-learn applies
    to its input ([check_array]). *)
Definition could_not_convert (s : pystr) : exception :=
  ValueError (str "could not convert string to float: '" ++ s ++ str "'").

Fixpoint floats_of_strs (items : list pystr) : result (list pyfloat) :=
  match items with
  | [] => Ok []
  | s :: rest =>
    match parse_float s with
    | None => Raise (could_not_convert s)
    | Some x =>
      match floats_of_strs rest with
      | Ok xs => Ok (x :: xs)
      | Raise e => Raise e
      end
    end
  end.

Definition as_float_row (a : ndarray) : result (list pyfloat) :=
  match a with
  | StrArray _ items => floats_of_strs items
  | IntArray items => Ok (map (fun z => Num (inject_Z z)) items)
  | FloatArray items => Ok items
  end.

Fixpoint as_float_matrix (rows : list ndarray) : result (list (list pyfloat)) :=
  match rows with
  | [] => Ok []
  | a :: rest =>
    match as_float_row a with
    | Raise e => Raise e
    | Ok r =>
      match as_float_matrix rest with
      | Ok rs => Ok (r :: rs)
      | Raise e => Raise e
      end
    end
  end.

(** ** Fitted objects and artifact files *)

Abbreviation matrix := (list (list pyfloat)).

(** A fitted object as the pipelines use it: what its [transform] and
    [predict] methods do, either of which may raise. *)
Record pyobject : Type := {
  obj_transform : list ndarray -> result matrix;
  obj_predict : matrix -> result (list pyfloat)
}.

(** A file under [artifacts/]: a pickled object, or a file that [open]
    or [pickle.load] fails on with the given exception. *)
Inductive file : Type :=
| Pickle (o : pyobject)
| Unreadable (e : exception).

(** [with open(path, "rb") as f: pickle.load(f)] *)
Definition pickle_load (fs : gmap pystr file) (path : pystr) : result pyobject :=
  match fs !! path with
  | None =>
    Raise (PyError (str "FileNotFoundError")
             (str "[Errno 2] No such file or directory: '" ++ path ++ str "'"))
  | Some (Unreadable e) => Raise e
  | Some (Pickle o) => Ok o
  end.

(** The calls of a prediction that the properties speak about, with
    their arguments, in the order they are made.  Logging is not
    recorded. *)
Inductive event : Type :=
| CallArray (input_data : list pyval)
| CallTransform (x : list ndarray)
| CallPredict (x : matrix).

(** A computation that makes calls and returns or raises. *)
Definition M (A : Type) : Type := (list event * result A)%type.

Definition ret {A : Type} (x : A) : M A := ([], Ok x).

Definition raise {A : Type} (e : exception) : M A := ([], Raise e).

Definition bind {A B : Type} (m : M A) (f : A -> M B) : M B :=
  match m with
  | (t, Ok x) => let '(t', r) := f x in (t ++ t', r)
  | (t, Raise e) => (t, Raise e)
  end.

(** A call that is recorded, with its outcome. *)
Definition call {A : Type} (ev : event) (r : result A) : M A := ([ev], r).

(** [try: m except Exception as e: h e] *)
Definition try_except {A : Type} (m : M A) (h : exception -> M A) : M A :=
  match m with
  | (t, Ok x) => (t, Ok x)
  | (t, Raise e) => let '(t', r) := h e in (t ++ t', r)
  end.

Notation "x <- m ;; k" := (bind m (fun x => k))
  (at level 100, m at next level, right associativity).

(** Sequencing of steps that may raise. *)
Definition rbind {A B : Type} (r : result A) (f : A -> result B) : result B :=
  match r with
  | Ok x => f x
  | Raise e => Raise e
  end.

Notation "x <~ r ;; k" := (rbind r (fun x => k))
  (at level 100, r at next level, right associativity).

(** ** pandas frames *)

(** pandas is not part of the sources.  A frame is modelled by its
    rows; a column read from it is the list of its cells; the [.str]
    accessor exists on [object] columns only and leaves a cell that is
    not text missing; [dropna(subset=...)] keeps the rows without a
    null cell in the named columns. *)

(** A cell of a frame: text, or a number ([NaN] for a missing value). *)
Inductive cell : Type :=
| Text (s : pystr)
| Number (x : pyfloat).

Definition is_Number (c : cell) : bool :=
  match c with Number _ => true | Text _ => false end.

(** [pd.isnull] on a cell. *)
Definition cell_isnull (c : cell) : bool :=
  match c with
  | Number x => isnull x
  | Text _ => false
  end.

(** A frame: its rows, each a map from column name to cell. *)
Abbreviation DataFrame := (list (gmap pystr cell)).

(** The cell of a row in a column. *)
Definition cell_at (r : gmap pystr cell) (name : pystr) : cell :=
  default (Number NaN) (r !! name).

Definition KeyError (key : pystr) : exception :=
  PyError (str "KeyError") (str "'" ++ key ++ str "'").

Definition has_column (name : pystr) (df : DataFrame) : bool :=
  forallb (fun r => bool_decide (is_Some (r !! name))) df.

(** [df[name]] *)
Definition getcol (df : DataFrame) (name : pystr) : result (list cell) :=
  if has_column name df
  then Ok (map (fun r => cell_at r name) df)
  else Raise (KeyError name).

(** [df[name] = series], the series as long as the frame. *)
Definition setcol (df : DataFrame) (name : pystr) (series : list cell) : DataFrame :=
  zip_with (fun r c => <[name := c]> r) df series.

(** A column holds numbers only (a numeric dtype) or is an [object]
    column; the column of a frame without rows is an [object] column. *)
Definition numeric_dtype (series : list cell) : bool :=
  negb (bool_decide (series = [])) && forallb is_Number series.

(** [series.str]: only an [object] column has the accessor. *)
Definition str_accessor (series : list cell) : result (list cell) :=
  if numeric_dtype series
  then Raise (PyError (str "AttributeError")
                (str "Can only use .str accessor with string values!"))
  else Ok series.

(** A row is kept by [dropna(subset=...)] when none of the named cells
    is null. *)
Definition complete (subset : list pystr) (r : gmap pystr cell) : bool :=
  forallb (fun name => negb (cell_isnull (cell_at r name))) subset.

(** [df.dropna(subset=subset)] *)
Definition dropna (subset : list pystr) (df : DataFrame) : result DataFrame :=
  match List.find (fun name => negb (has_column name df)) subset with
  | Some name => Raise (KeyError name)
  | None => Ok (List.filter (complete subset) df)
  end.

(** [df[names]] as rows of cells. *)
Definition select (names : list pystr) (df : DataFrame) : list (list cell) :=
  map (fun r => map (fun name => cell_at r name) names) df.

(** The conversion of a frame's cells to [float64] that scikit-learn
    applies to its input. *)
Definition float_of_cell (c : cell) : result pyfloat :=
  match c with
  | Number x => Ok x
  | Text s =>
    match parse_float s with
    | Some x => Ok x
    | None => Raise (could_not_convert s)
    end
  end.

Fixpoint floats_of_cells (cs : list cell) : result (list pyfloat) :=
  match cs with
  | [] => Ok []
  | c :: rest =>
    x <~ float_of_cell c ;;
    xs <~ floats_of_cells rest ;;
    Ok (x :: xs)
  end.

Fixpoint floats_of_rows (rows : list (list cell)) : result matrix :=
  match rows with
  | [] => Ok []
  | cs :: rest =>
    r <~ floats_of_cells cs ;;
    rs <~ floats_of_rows rest ;;
    Ok (r :: rs)
  end.

(** ** The scaler *)

(** Modelled from the spec: the Scaler and its ScalerState (per-feature
    mean and standard deviation, fitted once on the training feature
    matrix and applied to feature vectors).  The sources import it as
    scikit-learn's [StandardScaler], whose code is not under [src/];
    the parts the spec leaves open follow that class: [NaN] entries are
    disregarded when fitting and kept when transforming, an infinite
    entry or an empty matrix is rejected, a constant feature has scale
    1, and [fit_transform] is [fit] followed by [transform]. *)
Module sklearn.

(** The fitted state: per-feature mean and scale. *)
Record StandardScaler : Type := {
  mean_ : list pyfloat;
  scale_ : list pyfloat
}.

Definition number_of (x : pyfloat) : option Q :=
  match x with Num q => Some q | _ => None end.

Definition is_Inf (x : pyfloat) : bool :=
  match x with Inf _ => true | _ => false end.

Definition qsum (qs : list Q) : Q := fold_right Qplus 0%Q qs.

(** Mean of the numbers of a column; [NaN] entries are disregarded. *)
Definition nanmean (xs : list pyfloat) : pyfloat :=
  match omap number_of xs with
  | [] => NaN
  | qs => Num (qsum qs / inject_Z (Z.of_nat (length qs)))
  end.

Definition sq_dev (m : Q) (x : pyfloat) : pyfloat :=
  match x with
  | Num q => Num ((q - m) * (q - m))
  | _ => NaN
  end.

(** Population variance of the numbers of a column. *)
Definition nanvar (xs : list pyfloat) : pyfloat :=
  match nanmean xs with
  | Num m => nanmean (map (sq_dev m) xs)
  | _ => NaN
  end.

Definition column (j : nat) (X : matrix) : list pyfloat :=
  map (fun row => nth j row NaN) X.

Definition n_features (X : matrix) : nat :=
  match X with
  | [] => 0%nat
  | row :: _ => length row
  end.

Definition columns (X : matrix) : list (list pyfloat) :=
  map (fun j => column j X) (seq 0 (n_features X)).

(** The input checks of [fit] and [transform]: at least one sample, no
    infinity ([NaN] is allowed). *)
Definition check_array (X : matrix) : result matrix :=
  if bool_decide (X = []) then
    Raise (ValueError (str "Found array with 0 sample(s) while a minimum of 1 is required by StandardScaler."))
  else if existsb (existsb is_Inf) X then
    Raise (ValueError (str "Input X contains infinity or a value too large for dtype('float64')."))
  else Ok X.

(** One scaled entry; [NaN] stays [NaN]. *)
Definition scale_value (x m s : pyfloat) : pyfloat :=
  match x, m, s with
  | Num x, Num m, Num s => Num ((x - m) / s)
  | _, _, _ => NaN
  end.

Fixpoint scale_row (row ms ss : list pyfloat) : list pyfloat :=
  match row, ms, ss with
  | x :: row', m :: ms', s :: ss' => scale_value x m s :: scale_row row' ms' ss'
  | _, _, _ => []
  end.

Section Scaler.

(** The square root on floats. *)
Variable fsqrt : Q -> Q.

(** The scale of a feature: the square root of its variance, 1 for a
    constant feature. *)
Definition scale_of (v : pyfloat) : pyfloat :=
  match v with
  | Num q => if Qeq_bool q 0 then Num 1 else Num (fsqrt q)
  | _ => NaN
  end.

(** Modelled from the spec: the ScalerState, per-feature mean and
    standard deviation fitted on the feature matrix;
    [StandardScaler().fit(X)] in the source. *)
Definition fit (X : matrix) : result StandardScaler :=
  match check_array X with
  | Raise e => Raise e
  | Ok X =>
    Ok {| mean_ := map nanmean (columns X);
          scale_ := map (fun c => scale_of (nanvar c)) (columns X) |}
  end.

(** Modelled from the spec: the stored normalization applied to
    feature vectors; [scaler.transform(X)] in the source. *)
Definition transform (scaler : StandardScaler) (X : matrix) : result matrix :=
  match check_array X with
  | Raise e => Raise e
  | Ok X =>
    if forallb (fun row => (length row =? length (mean_ scaler))%nat) X
    then Ok (map (fun row => scale_row row (mean_ scaler) (scale_ scaler)) X)
    else Raise (ValueError (str "X has a different number of features than StandardScaler is expecting as input."))
  end.

(** Modelled from the spec: steps 5 and 6 of the training procedure,
    "fit ScalerState on the resulting feature matrix" and "transform
    the matrix with the fitted scaler".  The source calls them as one,
    [scaler.fit_transform(X)], which scikit-learn (not under [src/])
    defines as [self.fit(X).transform(X)]. *)
Definition fit_transform (X : matrix) : result (StandardScaler * matrix) :=
  match fit X with
  | Raise e => Raise e
  | Ok scaler =>
    match transform scaler X with
    | Raise e => Raise e
    | Ok X_scaled => Ok (scaler, X_scaled)
    end
  end.

(** The fitted scaler as the object that is pickled: [transform]
    converts its argument to floats first; there is no [predict]. *)
Definition scaler_object (scaler : StandardScaler) : pyobject :=
  {| obj_transform := fun rows =>
       match as_float_matrix rows with
       | Raise e => Raise e
       | Ok X => transform scaler X
       end;
     obj_predict := fun _ =>
       Raise (AttributeError (str "StandardScaler") (str "predict")) |}.

End Scaler.

End sklearn.

(** ** The processor-speed resolver *)

(** [for key, value in table.items(): if key.lower() in name.lower():
    return value] followed by [return default]. *)
Fixpoint first_match (table : list (pystr * Q)) (default : Q) (name : pystr) : Q :=
  match table with
  | [] => default
  | (key, value) :: rest =>
    if contains (lower key) (lower name) then value
    else first_match rest default name
  end.

Module training_pipeline.

(** The string operations of [clean_numeric_column] on one value:
    [' ' + unit] is replaced by [unit], then [unit] by nothing (both
    only when [unit] is non-empty), then every comma is removed.  The
    replacements are literal: the units passed by this module hold no
    regular-expression metacharacter. *)
Definition strip_unit_and_commas (unit s : pystr) : pystr :=
  let s :=
    if truthy unit
    then replace unit [] (replace (str " " ++ unit) unit s)
    else s in
  replace (str ",") [] s.

(** [clean_numeric_column] on one string value. *)
Definition clean_numeric (unit s : pystr) : pyfloat :=
  to_numeric_coerce (strip_unit_and_commas unit s).

(** [clean_numeric_column(series, unit)]: the [.str] methods leave a
    cell that is not text missing. *)
Definition clean_numeric_cell (unit : pystr) (c : cell) : cell :=
  match c with
  | Text s => Number (clean_numeric unit s)
  | Number _ => Number NaN
  end.

Definition clean_numeric_column (series : list cell) (unit : pystr)
  : result (list cell) :=
  series <~ str_accessor series ;;
  Ok (map (clean_numeric_cell unit) series).

(** The character class of the pattern in [clean_price], as the source
    file holds it: U+00E2, U+201A, U+00B9, the comma, and [\s]. *)
Definition price_class (c : codepoint) : bool :=
  (c =? 226) || (c =? 8218) || (c =? 185) || (c =? 44) || is_space_unicode c.

(** The string operations of [clean_price] on one value. *)
Definition strip_price (s : pystr) : pystr :=
  replace (str "INR") [] (remove_class price_class s).

(** [clean_price] on one string value. *)
Definition clean_price_value (s : pystr) : pyfloat :=
  to_numeric_coerce (strip_price s).

(** [clean_price(price_series)] *)
Definition clean_price_cell (c : cell) : cell :=
  match c with
  | Text s => Number (clean_price_value s)
  | Number _ => Number NaN
  end.

Definition clean_price (price_series : list cell) : result (list cell) :=
  series <~ str_accessor price_series ;;
  Ok (map clean_price_cell series).

Definition processor_speeds : list (pystr * Q) :=
  [ (str "A17 Pro", 3.78%Q);
    (str "A17 Bionic", 3.78%Q);
    (str "A16 Bionic", 3.46%Q);
    (str "A15 Bionic", 3.23%Q);
    (str "A14 Bionic", 3.1%Q);
    (str "A13 Bionic", 2.65%Q);
    (str "A12 Bionic", 2.5%Q);
    (str "A11 Bionic", 2.4%Q);
    (str "Snapdragon 8 Gen 3", 3.3%Q);
    (str "Snapdragon 8 Gen 2", 3.2%Q);
    (str "Snapdragon 8+ Gen 1", 3.2%Q);
    (str "Snapdragon 8 Gen 1", 3.0%Q);
    (str "Snapdragon 7+ Gen 2", 2.91%Q);
    (str "Snapdragon 7 Gen 1", 2.4%Q);
    (str "MediaTek Dimensity 9300", 3.25%Q);
    (str "MediaTek Dimensity 9200", 3.05%Q);
    (str "MediaTek Dimensity 9000", 3.05%Q);
    (str "MediaTek Dimensity 8300", 3.35%Q);
    (str "MediaTek Dimensity 8200", 3.1%Q);
    (str "Exynos 2400", 3.2%Q);
    (str "Exynos 2200", 2.8%Q);
    (str "Exynos 1380", 2.4%Q);
    (str "Google Tensor G3", 2.91%Q);
    (str "Google Tensor G2", 2.85%Q);
    (str "Google Tensor", 2.8%Q) ].

Definition get_processor_speed (processor_name : pystr) : Q :=
  first_match processor_speeds 2.0%Q processor_name.

(** [df["Processor"].apply(get_processor_speed)]: a cell that is not
    text has no [lower]. *)
Fixpoint apply_get_processor_speed (series : list cell) : result (list cell) :=
  match series with
  | [] => Ok []
  | Text s :: rest =>
    speeds <~ apply_get_processor_speed rest ;;
    Ok (Number (Num (get_processor_speed s)) :: speeds)
  | Number _ :: _ =>
    Raise (AttributeError (str "float") (str "lower"))
  end.

(** [df[name] = clean_numeric_column(df[name], unit)] *)
Definition clean_column (name unit : pystr) (df : DataFrame) : result DataFrame :=
  series <~ getcol df name ;;
  cleaned <~ clean_numeric_column series unit ;;
  Ok (setcol df name cleaned).

(** Lines 150-167: the six unit columns, the processor speed, the price. *)
Definition clean_frame (df : DataFrame) : result DataFrame :=
  df <~ clean_column (str "Mobile Weight") (str "g") df ;;
  df <~ clean_column (str "RAM") (str "GB") df ;;
  df <~ clean_column (str "Front Camera") (str "MP") df ;;
  df <~ clean_column (str "Back Camera") (str "MP") df ;;
  df <~ clean_column (str "Battery Capacity") (str "mAh") df ;;
  df <~ clean_column (str "Screen Size") (str "inches") df ;;
  processor <~ getcol df (str "Processor") ;;
  speeds <~ apply_get_processor_speed processor ;;
  let df := setcol df (str "Processor_Speed") speeds in
  price <~ getcol df (str "Launched Price (India)") ;;
  cleaned <~ clean_price price ;;
  Ok (setcol df (str "Launched Price (India)") cleaned).

Definition features : list pystr :=
  [ str "Mobile Weight"; str "RAM"; str "Front Camera"; str "Back Camera";
    str "Processor_Speed"; str "Battery Capacity"; str "Screen Size";
    str "Launched Year" ].

Definition target : pystr := str "Launched Price (India)".

Definition model_path : pystr := str "artifacts/best_model.pkl".
Definition scaler_path : pystr := str "artifacts/scaler.pkl".

(** The speed cell of a row whose processor cell is text. *)
Definition speed_cell (c : cell) : cell :=
  match c with
  | Text s => Number (Num (get_processor_speed s))
  | Number _ => Number NaN
  end.

(** What the cleaning makes of one row, column by column in the order
    of [clean_frame]. *)
Definition clean_row (r : gmap pystr cell) : gmap pystr cell :=
  let clean name unit r := <[name := clean_numeric_cell unit (cell_at r name)]> r in
  let r := clean (str "Mobile Weight") (str "g") r in
  let r := clean (str "RAM") (str "GB") r in
  let r := clean (str "Front Camera") (str "MP") r in
  let r := clean (str "Back Camera") (str "MP") r in
  let r := clean (str "Battery Capacity") (str "mAh") r in
  let r := clean (str "Screen Size") (str "inches") r in
  let r := <[str "Processor_Speed" := speed_cell (cell_at r (str "Processor"))]> r in
  <[str "Launched Price (India)" :=
      clean_price_cell (cell_at r (str "Launched Price (India)"))]> r.

(** The columns whose text is cleaned. *)
Definition text_columns : list pystr :=
  [ str "Mobile Weight"; str "RAM"; str "Front Camera"; str "Back Camera";
    str "Battery Capacity"; str "Screen Size"; str "Launched Price (India)" ].

Section Training.

(** The square root on floats, and the learner:
    [RandomForestRegressor(n_estimators, random_state).fit(X, y)]. *)
Variable fsqrt : Q -> Q.
Variable RandomForestRegressor_fit :
  nat -> Z -> matrix -> list pyfloat -> result pyobject.

(** [train_and_save_model()] on the frame read from the dataset and
    the files present: the files afterwards, and the pair returned or
    the exception raised. *)
Definition train_and_save_model (df : DataFrame) (fs : gmap pystr file)
  : gmap pystr file * result (pyobject * pyobject) :=
  let outcome :=
    df <~ clean_frame df ;;
    df <~ dropna (features ++ [target]) df ;;
    X <~ floats_of_rows (select features df) ;;
    fitted <~ sklearn.fit_transform fsqrt X ;;
    let '(scaler, X_scaled) := fitted in
    y <~ floats_of_cells (map (fun r => cell_at r target) df) ;;
    model <~ RandomForestRegressor_fit 100%nat 42%Z X_scaled y ;;
    Ok (model, sklearn.scaler_object scaler) in
  match outcome with
  | Ok (model, scaler) =>
    (<[scaler_path := Pickle scaler]> (<[model_path := Pickle model]> fs),
     Ok (model, scaler))
  | Raise e => (fs, Raise e)
  end.

End Training.

End training_pipeline.

Module prediction_pipeline.

Definition processor_speeds : list (pystr * Q) :=
  [ (str "A17 Pro", 3.78%Q);
    (str "A17 Bionic", 3.78%Q);
    (str "A16 Bionic", 3.46%Q);
    (str "A15 Bionic", 3.23%Q);
    (str "A14 Bionic", 3.1%Q);
    (str "A13 Bionic", 2.65%Q);
    (str "A12 Bionic", 2.5%Q);
    (str "A11 Bionic", 2.4%Q);
    (str "Snapdragon 8 Gen 3", 3.3%Q);
    (str "Snapdragon 8 Gen 2", 3.2%Q);
    (str "Snapdragon 8+ Gen 1", 3.2%Q);
    (str "Snapdragon 8 Gen 1", 3.0%Q);
    (str "Snapdragon 7+ Gen 2", 2.91%Q);
    (str "Snapdragon 7 Gen 1", 2.4%Q);
    (str "MediaTek Dimensity 9300", 3.25%Q);
    (str "MediaTek Dimensity 9200", 3.05%Q);
    (str "MediaTek Dimensity 9000", 3.05%Q);
    (str "MediaTek Dimensity 8300", 3.35%Q);
    (str "MediaTek Dimensity 8200", 3.1%Q);
    (str "Exynos 2400", 3.2%Q);
    (str "Exynos 2200", 2.8%Q);
    (str "Exynos 1380", 2.4%Q);
    (str "Google Tensor G3", 2.91%Q);
    (str "Google Tensor G2", 2.85%Q);
    (str "Google Tensor", 2.8%Q) ].

Definition get_processor_speed (processor_name : pystr) : Q :=
  first_match processor_speeds 2.0%Q processor_name.

Record ModelPredictor : Type := {
  model_path : pystr;
  scaler_path : pystr;
  model : option pyobject;
  scaler : option pyobject
}.

(** [self.load_model()] *)
Definition load_model (fs : gmap pystr file) (model_path : pystr) : result pyobject :=
  match pickle_load fs model_path with
  | Ok model => Ok model
  | Raise e =>
    if is_FileNotFoundError e
    then Raise (CustomException (str "Model file not found at " ++ model_path))
    else Raise (CustomException (str "Error loading model: " ++ exc_str e))
  end.

(** [self.load_scaler()] *)
Definition load_scaler (fs : gmap pystr file) (scaler_path : pystr) : result pyobject :=
  match pickle_load fs scaler_path with
  | Ok scaler => Ok scaler
  | Raise e =>
    if is_FileNotFoundError e
    then Raise (CustomException (str "Scaler file not found at " ++ scaler_path))
    else Raise (CustomException (str "Error loading scaler: " ++ exc_str e))
  end.

(** [ModelPredictor(model_path, scaler_path)]: the constructor, with
    the files present at that time. *)
Definition init (fs : gmap pystr file) (model_path scaler_path : pystr)
  : result ModelPredictor :=
  match (model <~ load_model fs model_path ;;
         scaler <~ load_scaler fs scaler_path ;;
         Ok (model, scaler)) with
  | Ok (model, scaler) =>
    Ok {| model_path := model_path; scaler_path := scaler_path;
          model := Some model; scaler := Some scaler |}
  | Raise e =>
    Ok {| model_path := model_path; scaler_path := scaler_path;
          model := None; scaler := None |}
  end.

(** [get_processor_speed(processor)] on an element read from the
    array: only a string has [lower]. *)
Definition speed_of_scalar (processor : npscalar) : result Q :=
  match processor with
  | NpStr s => Ok (get_processor_speed s)
  | NpInt _ => Raise (AttributeError (str "numpy.int64") (str "lower"))
  | NpFloat _ => Raise (AttributeError (str "numpy.float64") (str "lower"))
  end.

Definition not_loaded : pystr :=
  str "Model or scaler not loaded. Please ensure both files exist.".

(** [self.make_prediction(input_data)] *)
Definition make_prediction (self : ModelPredictor) (input_data : list pyval)
  : M (list pyfloat) :=
  try_except
    (match model self, scaler self with
     | Some model, Some scaler =>
       input_data <- call (CallArray input_data) (Ok (np_array input_data)) ;;
       processor <- ([], getitem input_data 4) ;;
       processor_speed <- ([], speed_of_scalar processor) ;;
       let input_data := setitem_float input_data 4 processor_speed in
       let input_data := [input_data] in
       input_scaled <- call (CallTransform input_data)
                            (obj_transform scaler input_data) ;;
       prediction <- call (CallPredict input_scaled)
                          (obj_predict model input_scaled) ;;
       ret prediction
     | _, _ => raise (CustomException not_loaded)
     end)
    (fun e =>
       raise (CustomException (str "Error in making prediction: " ++ exc_str e))).

End prediction_pipeline.

(** ** The serving application *)

Module application.

Record app : Type := {
  predictor : option prediction_pipeline.ModelPredictor;
  MODEL_LOADED : bool
}.

(** Lines 10-16: the predictor is built when the module is imported,
    with the default paths. *)
Definition startup (fs : gmap pystr file) : app :=
  match prediction_pipeline.init fs (str "artifacts/best_model.pkl")
                                 (str "artifacts/scaler.pkl") with
  | Ok p => {| predictor := Some p; MODEL_LOADED := true |}
  | Raise _ => {| predictor := None; MODEL_LOADED := false |}
  end.

Inductive body : Type :=
| ErrorBody (error : pystr)
| PredictionBody (prediction : list pyfloat).

Record response : Type := {
  status : nat;
  json : body
}.

Definition required_features : list pystr :=
  [ str "Mobile Weight"; str "RAM"; str "Front Camera"; str "Back Camera";
    str "Processor"; str "Battery Capacity"; str "Screen Size";
    str "Launched Year" ].

(** [data[name]] on the request body, a JSON object. *)
Definition field (data : gmap pystr pyval) (name : pystr) : M pyval :=
  match data !! name with
  | Some v => ret v
  | None => raise (KeyError name)
  end.

(** The handler of [POST /predict] on a request whose body is the JSON
    object [data]. *)
Definition predict (a : app) (data : gmap pystr pyval) : M response :=
  try_except
    (if negb (MODEL_LOADED a) then
       ret {| status := 503;
              json := ErrorBody (str "Model not loaded. Please ensure model file exists in artifacts/best_model.pkl") |}
     else if negb (forallb (fun feature => bool_decide (is_Some (data !! feature)))
                           required_features) then
       ret {| status := 400;
              json := ErrorBody (str "Missing required features in input data.") |}
     else
       mobile_weight <- field data (str "Mobile Weight") ;;
       ram <- field data (str "RAM") ;;
       front_camera <- field data (str "Front Camera") ;;
       back_camera <- field data (str "Back Camera") ;;
       processor <- field data (str "Processor") ;;
       battery_capacity <- field data (str "Battery Capacity") ;;
       screen_size <- field data (str "Screen Size") ;;
       launched_year <- field data (str "Launched Year") ;;
       let input_data :=
         [ mobile_weight; ram; front_camera; back_camera; processor;
           battery_capacity; screen_size; launched_year ] in
       prediction <-
         match predictor a with
         | Some p => prediction_pipeline.make_prediction p input_data
         | None =>
           raise (PyError (str "NameError") (str "name 'predictor' is not defined"))
         end ;;
       ret {| status := 200; json := PredictionBody prediction |})
    (fun e => ret {| status := 500; json := ErrorBody (exc_str e) |}).

(** The body of the answer to [GET /]. *)
Record home_body : Type := {
  home_message : pystr;
  home_status : pystr
}.

(** The handler of [GET /]. *)
Definition home (a : app) : home_body :=
  {| home_message := str "Mobile Price Prediction API";
     home_status := if MODEL_LOADED a then str "Model loaded"
                    else str "Model not loaded" |}.

End application.


(** ** Sample values *)

(** The example request of the module: a 180 g phone with an A17 Bionic. *)
Definition sample_input : list pyval :=
  [ PInt 180; PInt 8; PInt 16; PInt 48; PStr (str "A17 Bionic");
    PInt 4500; PFloat (Num 6.5%Q); PInt 2023 ].

Definition sample_data : gmap pystr pyval :=
  list_to_map (zip application.required_features sample_input).

(** A scaler that leaves the floats as they are, and a model that
    predicts from the processor speed alone. *)
Definition sample_scaler : pyobject :=
  {| obj_transform := as_float_matrix;
     obj_predict := fun _ =>
       Raise (AttributeError (str "StandardScaler") (str "predict")) |}.

Definition sample_model : pyobject :=
  {| obj_transform := fun _ =>
       Raise (AttributeError (str "RandomForestRegressor") (str "transform"));
     obj_predict := fun X => Ok (map (fun row => nth 4 row NaN) X) |}.

Definition sample_files : gmap pystr file :=
  <[str "artifacts/best_model.pkl" := Pickle sample_model]>
    (<[str "artifacts/scaler.pkl" := Pickle sample_scaler]> ∅).

(** Only the model file is there. *)
Definition model_only_files : gmap pystr file :=
  <[str "artifacts/best_model.pkl" := Pickle sample_model]> ∅.

Definition sample_predictor : prediction_pipeline.ModelPredictor :=
  {| prediction_pipeline.model_path := str "artifacts/best_model.pkl";
     prediction_pipeline.scaler_path := str "artifacts/scaler.pkl";
     prediction_pipeline.model := Some sample_model;
     prediction_pipeline.scaler := Some sample_scaler |}.

(** One-digit numbers and an unknown one-letter processor. *)
Definition short_input : list pyval :=
  [ PInt 1; PInt 2; PInt 3; PInt 4; PStr (str "X"); PInt 5; PInt 6; PInt 7 ].

(** The same request with every field sent as a string. *)
Definition short_text_input : list pyval :=
  [ PStr (str "1"); PStr (str "2"); PStr (str "3"); PStr (str "4");
    PStr (str "X"); PStr (str "5"); PStr (str "6"); PStr (str "7") ].

(** A row of the dataset, from the texts of its nine columns. *)
Definition dataset_row (weight ram front back processor battery screen : string)
           (year : Q) (price : pystr) : gmap pystr cell :=
  list_to_map
    [ (str "Mobile Weight", Text (str weight));
      (str "RAM", Text (str ram));
      (str "Front Camera", Text (str front));
      (str "Back Camera", Text (str back));
      (str "Processor", Text (str processor));
      (str "Battery Capacity", Text (str battery));
      (str "Screen Size", Text (str screen));
      (str "Launched Year", Number (Num year));
      (str "Launched Price (India)", Text price) ].

(** Four rows: two complete ones, one whose weight is not a number, and
    one whose price carries the rupee sign U+20B9. *)
Definition sample_dataset : DataFrame :=
  [ dataset_row "174g" "6GB" "12MP" "48MP" "A17 Bionic" "3,600mAh" "6.1 inches"
                2024 (str "INR 79,999");
    dataset_row "heavy" "8GB" "16MP" "50MP" "Exynos 2400" "4,000mAh" "6.2 inches"
                2024 (str "INR 74,999");
    dataset_row "180 g" "8GB" "16MP" "48MP" "Snapdragon 8 Gen 3" "4,500mAh" "6.5 inches"
                2023 (8377 :: str "1,20,000");
    dataset_row "190g" "12GB" "32MP" "50MP" "Unknown Chip X" "5,000mAh" "6.7 inches"
                2023 (str "INR 59,999") ].

(** A square root for the examples: exact on the squares of integers. *)
Definition sample_sqrt (q : Q) : Q :=
  (Z.sqrt (Qnum q * Zpos (Qden q)) # Qden q)%Q.

(** A learner for the examples: it predicts the mean of the targets. *)
Definition sample_fit (n_estimators : nat) (random_state : Z) (X : matrix)
           (y : list pyfloat) : result pyobject :=
  Ok {| obj_transform := fun _ =>
          Raise (AttributeError (str "RandomForestRegressor") (str "transform"));
        obj_predict := fun X => Ok (map (fun _ => sklearn.nanmean y) X) |}.

(** The value a step returned, [d] if it raised. *)
Definition returned {A : Type} (d : A) (r : result A) : A :=
  match r with
  | Ok x => x
  | Raise _ => d
  end.

(** Whether a step returned. *)
Definition is_ok {A : Type} (r : result A) : bool :=
  match r with
  | Ok _ => true
  | Raise _ => false
  end.

(** The stages of the training on the sample dataset. *)
Definition sample_cleaned : DataFrame :=
  returned [] (training_pipeline.clean_frame sample_dataset).

Definition sample_kept : DataFrame :=
  returned []
    (dropna (training_pipeline.features ++ [training_pipeline.target]) sample_cleaned).

Definition sample_X : matrix :=
  returned [] (floats_of_rows (select training_pipeline.features sample_kept)).

Definition sample_y : list pyfloat :=
  returned []
    (floats_of_cells
       (map (fun r => cell_at r training_pipeline.target) sample_kept)).

(** The two responses of the handler to a request it rejects. *)
Definition missing_response : application.response :=
  {| application.status := 400;
     application.json :=
       application.ErrorBody (str "Missing required features in input data.") |}.

Definition not_loaded_response : application.response :=
  {| application.status := 500;
     application.json :=
       application.ErrorBody
         (str "Error in making prediction: " ++ prediction_pipeline.not_loaded) |}.

(** What the properties below need of an entry of the table: its
    lowered key has at least 7 code points, the text of its value at
    most 4, and that text reads back as the value. *)
Definition entry_ok (entry : pystr * Q) : bool :=
  let '(key, value) := entry in
  (7 <=? length (lower key))%nat &&
  (length (float_str (Num value)) <=? 4)%nat &&
  match parse_float (float_str (Num value)) with
  | Some (Num q) => Qeq_bool q value
  | _ => false
  end.

(** ** Checks on the table *)

(** The same fraction, numerator and denominator. *)
Definition Q_same (p q : Q) : bool :=
  (Qnum p =? Qnum q)%Z && (Qden p =? Qden q)%positive.

(** An entry's own key resolves to the entry's value. *)
Definition resolves_to_itself (table : list (pystr * Q)) (entry : pystr * Q) : bool :=
  let '(key, value) := entry in Q_same (first_match table 2.0%Q key) value.

(** The lowered key of an entry holds a space. *)
Definition key_has_space (entry : pystr * Q) : bool :=
  existsb (N.eqb 32) (lower (fst entry)).

(** ** A request and the dataset row that spells it *)

(** The field [v] of a request fits the width of the array and its
    text reads as the float [x]. *)
Definition reads_as (v : pyval) (x : pyfloat) : Prop :=
  (length (py_str v) <= item_width v)%nat /\ parse_float (py_str v) = Some x.

(** A text of digits, points and minus signs. *)
Definition plain_text (t : pystr) : Prop :=
  Forall (fun c => is_digit c = true \/ c = 46 \/ c = 45) t.

(** A row of the dataset from the texts of its columns. *)
Definition frame_row (weight ram front back processor battery screen : pystr)
           (year : cell) (price : pystr) : gmap pystr cell :=
  <[str "Mobile Weight" := Text weight]>
    (<[str "RAM" := Text ram]>
       (<[str "Front Camera" := Text front]>
          (<[str "Back Camera" := Text back]>
             (<[str "Processor" := Text processor]>
                (<[str "Battery Capacity" := Text battery]>
                   (<[str "Screen Size" := Text screen]>
                      (<[str "Launched Year" := year]>
                         (<[str "Launched Price (India)" := Text price]> ∅)))))))).

(** A number text followed by its unit, after a space or not. *)
Definition with_unit (space : bool) (t unit : pystr) : pystr :=
  t ++ (if space then str " " else []) ++ unit.

(** * Properties *)

(** ** Properties of strings *)

Lemma startswith_app (p r : pystr) : startswith p (p ++ r) = true.
Proof.
  induction p as [|c p IH]; simpl; [reflexivity|].
  rewrite N.eqb_refl. exact IH.
Qed.

Lemma startswith_inv (p s : pystr) :
  startswith p s = true -> exists r, s = p ++ r.
Proof.
  revert s. induction p as [|c p IH]; intros s H.
  - exists s. reflexivity.
  - destruct s as [|d s]; simpl in H; [discriminate|].
    apply andb_true_iff in H as [Hc Hp].
    apply N.eqb_eq in Hc. subst d.
    destruct (IH _ Hp) as [r ->]. exists r. reflexivity.
Qed.

Lemma contains_spec (p s : pystr) :
  contains p s = true <-> is_substring p s.
Proof.
  split.
  - induction s as [|d s IH]; simpl; intros H.
    + apply orb_true_iff in H as [H|H]; [|discriminate].
      apply startswith_inv in H as [r ->]. exists [], r. reflexivity.
    + apply orb_true_iff in H as [H|H].
      * apply startswith_inv in H as [r ->]. exists [], r. reflexivity.
      * destruct (IH H) as (l & r & ->). exists (d :: l), r. reflexivity.
  - intros (l & r & ->). induction l as [|d l IH].
    + simpl app. destruct (p ++ r) eqn:E; simpl; rewrite <- E;
        rewrite startswith_app; reflexivity.
    + simpl. rewrite IH. apply orb_true_r.
Qed.

Lemma is_substring_length (p s : pystr) :
  is_substring p s -> (length p <= length s)%nat.
Proof.
  intros (l & r & ->). rewrite !length_app. lia.
Qed.

(** ** Properties of the resolver *)

(** The loop returns the value of the first matching entry, or the
    default when no entry matches. *)
Lemma first_match_spec (table : list (pystr * Q)) (default : Q) (name : pystr) :
  (exists (i : nat) key value,
      table !! i = Some (key, value) /\
      is_substring (lower key) (lower name) /\
      (forall (j : nat) key' value', (j < i)%nat ->
         table !! j = Some (key', value') ->
         ~ is_substring (lower key') (lower name)) /\
      first_match table default name = value)
  \/
  ((forall key value, In (key, value) table ->
      ~ is_substring (lower key) (lower name)) /\
   first_match table default name = default).
Proof.
  induction table as [|[k v] rest IH]; simpl.
  - right. split; [intros ? ? []|reflexivity].
  - destruct (contains (lower k) (lower name)) eqn:E.
    + left. exists 0%nat, k, v. repeat split.
      * apply contains_spec. exact E.
      * intros j ? ? Hj. lia.
    + assert (Hk : ~ is_substring (lower k) (lower name)).
      { intros H. apply contains_spec in H. congruence. }
      destruct IH as [(i & key & value & Hi & Hm & Hfirst & Hres)|[Hnone Hres]].
      * left. exists (S i), key, value. repeat split; try assumption.
        intros [|j] key' value' Hj Hl; simpl in Hl.
        -- injection Hl as <- <-. exact Hk.
        -- apply (Hfirst j key' value'); [lia|exact Hl].
      * right. split; [|exact Hres].
        intros key value [Heq|Hin].
        -- injection Heq as <- <-. exact Hk.
        -- apply (Hnone key value Hin).
Qed.

(** C1. The training-time and inference-time resolvers agree on every
    input: the two tables hold the same entries with the same values in
    the same order, the default is the same, and so is the value
    returned for any processor name; hence the processor column of the
    training frame and the processor element of a prediction array are
    turned into the same speed. *)
Theorem resolver_training_eq_prediction :
  training_pipeline.processor_speeds = prediction_pipeline.processor_speeds /\
  (forall name : pystr,
      training_pipeline.get_processor_speed name =
      prediction_pipeline.get_processor_speed name) /\
  (forall name : pystr,
      training_pipeline.get_processor_speed [] = 2.0%Q /\
      prediction_pipeline.get_processor_speed [] = 2.0%Q /\
      training_pipeline.apply_get_processor_speed [Text name] =
        Ok [Number (Num (prediction_pipeline.get_processor_speed name))] /\
      prediction_pipeline.speed_of_scalar (NpStr name) =
        Ok (training_pipeline.get_processor_speed name)).
Proof.
  split; [reflexivity|]. split; [intros name; reflexivity|].
  intros name. repeat split.
Qed.

(** C2. For every string the resolver returns the value of the first
    table entry, in definition order, whose key is a case-insensitive
    substring of the input; when no entry matches it returns 2.0; it is
    defined on every string, the empty one included. *)
Theorem get_processor_speed_first_match (name : pystr) :
  let table := prediction_pipeline.processor_speeds in
  let speed := prediction_pipeline.get_processor_speed name in
  ((exists (i : nat) key value,
       table !! i = Some (key, value) /\
       is_substring (lower key) (lower name) /\
       (forall (j : nat) key' value', (j < i)%nat ->
          table !! j = Some (key', value') ->
          ~ is_substring (lower key') (lower name)) /\
       speed = value)
   \/
   ((forall key value, In (key, value) table ->
       ~ is_substring (lower key) (lower name)) /\
    speed = 2.0%Q))
  /\ prediction_pipeline.get_processor_speed [] = 2.0%Q
  /\ prediction_pipeline.get_processor_speed (str "Unknown Chip X") = 2.0%Q
  /\ prediction_pipeline.get_processor_speed (str "Apple A17 Bionic Chip") = 3.78%Q.
Proof.
  cbv zeta. split; [|repeat split; vm_compute; reflexivity].
  apply first_match_spec.
Qed.

(** ** Properties of [replace] *)

Lemma startswith_short (p s : pystr) :
  (length s < length p)%nat -> startswith p s = false.
Proof.
  revert s. induction p as [|c p IH]; intros s H; simpl in H; [lia|].
  destruct s as [|d s]; simpl; [reflexivity|].
  simpl in H. rewrite IH by lia. apply andb_false_r.
Qed.

(** A text shorter than the pattern holds no occurrence. *)
Lemma replace_from_short (old new s : pystr) :
  (length s < length old)%nat -> replace_from old new 0 s = s.
Proof.
  induction s as [|c s IH]; intros H; simpl; [reflexivity|].
  destruct old as [|o old]; [simpl in H; lia|].
  rewrite startswith_short by exact H.
  f_equal. apply IH. simpl in H |- *. lia.
Qed.

(** A prefix free of the first code point of the pattern is copied. *)
Lemma replace_from_prefix (u : codepoint) (us new n s : pystr) :
  Forall (fun c => c <> u) n ->
  replace_from (u :: us) new 0 (n ++ s) = n ++ replace_from (u :: us) new 0 s.
Proof.
  induction 1 as [|c n Hc _ IH]; [reflexivity|].
  cbn [app replace_from startswith].
  destruct (N.eqb_spec u c) as [->|_]; [contradiction|].
  cbn [andb]. f_equal. exact IH.
Qed.

(** The rest of an occurrence is dropped. *)
Lemma replace_from_skip (old new s1 s2 : pystr) :
  replace_from old new (length s1) (s1 ++ s2) = replace_from old new 0 s2.
Proof.
  induction s1 as [|c s1 IH]; [reflexivity|]. exact IH.
Qed.

(** An occurrence at the head is replaced. *)
Lemma replace_from_occurrence (u : codepoint) (us new s : pystr) :
  replace_from (u :: us) new 0 ((u :: us) ++ s) =
  new ++ replace_from (u :: us) new 0 s.
Proof.
  cbn [app replace_from].
  change (u :: us ++ s) with ((u :: us) ++ s).
  rewrite startswith_app. f_equal.
  replace (length (u :: us) - 1)%nat with (length us) by (simpl; lia).
  apply replace_from_skip.
Qed.

(** A text that is the pattern becomes the replacement. *)
Lemma replace_from_whole (u : codepoint) (us new : pystr) :
  replace_from (u :: us) new 0 (u :: us) = new.
Proof.
  pose proof (replace_from_occurrence u us new []) as H.
  rewrite app_nil_r in H. rewrite H. cbn [replace_from]. apply app_nil_r.
Qed.

(** Replacing a one-code-point pattern by nothing removes that code
    point everywhere. *)
Lemma replace_char_empty (c : codepoint) (s : pystr) :
  replace [c] [] s = List.filter (fun d => negb (c =? d)) s.
Proof.
  unfold replace. induction s as [|d s IH]; [reflexivity|].
  cbn [replace_from startswith List.filter length].
  destruct (c =? d); cbn [andb negb].
  - exact IH.
  - f_equal. exact IH.
Qed.

(** ** Properties of the cleaning functions *)

Lemma filter_no_comma_eq (n : pystr) :
  List.filter (fun d => negb (44 =? d)) n = List.filter (fun c => negb (c =? 44)) n.
Proof.
  induction n as [|c n IH]; [reflexivity|].
  cbn [List.filter]. rewrite (N.eqb_sym 44 c), IH. reflexivity.
Qed.

(** The unit behind a number, after a space or not, is removed, and
    the commas of the number with it. *)
Lemma strip_unit_and_commas_suffix (u : codepoint) (us n : pystr) :
  Forall (fun c => c <> u /\ c <> 32) n ->
  training_pipeline.strip_unit_and_commas (u :: us) (n ++ str " " ++ u :: us) =
    List.filter (fun c => negb (c =? 44)) n /\
  training_pipeline.strip_unit_and_commas (u :: us) (n ++ u :: us) =
    List.filter (fun c => negb (c =? 44)) n.
Proof.
  intros Hn.
  assert (Hu : Forall (fun c => c <> u) n)
    by (eapply Forall_impl; [exact Hn|]; simpl; tauto).
  assert (Hs : Forall (fun c => c <> 32) n)
    by (eapply Forall_impl; [exact Hn|]; simpl; tauto).
  unfold training_pipeline.strip_unit_and_commas.
  cbn [truthy]. change (str " ") with [32]. cbn [app].
  change (str ",") with [44].
  rewrite !replace_char_empty, <- filter_no_comma_eq.
  unfold replace. split; f_equal.
  - rewrite (replace_from_prefix 32 (u :: us) (u :: us) n _ Hs).
    rewrite replace_from_whole.
    rewrite (replace_from_prefix u us [] n _ Hu).
    rewrite replace_from_whole. apply app_nil_r.
  - rewrite (replace_from_prefix 32 (u :: us) (u :: us) n _ Hs).
    rewrite (replace_from_short (32 :: u :: us) (u :: us) (u :: us))
      by (simpl; lia).
    rewrite (replace_from_prefix u us [] n _ Hu).
    rewrite replace_from_whole. apply app_nil_r.
Qed.

(** C7. [clean_numeric] removes the unit behind the number, whether a
    space precedes it or not, and every comma, and reads what is left
    as a float; "180 g" with unit "g" gives 180.0; a string whose
    remainder is not a number gives [NaN], and the function is defined
    on every string. *)
Theorem clean_numeric_strips_unit (unit n : pystr) (u : codepoint) (us : pystr) :
  unit = u :: us ->
  Forall (fun c => c <> u /\ c <> 32) n ->
  let digits := List.filter (fun c => negb (c =? 44)) n in
  training_pipeline.clean_numeric unit (n ++ str " " ++ unit) = to_numeric_coerce digits /\
  training_pipeline.clean_numeric unit (n ++ unit) = to_numeric_coerce digits /\
  (forall s : pystr,
      parse_float (training_pipeline.strip_unit_and_commas unit s) = None ->
      training_pipeline.clean_numeric unit s = NaN) /\
  training_pipeline.clean_numeric (str "g") (str "180 g") = Num 180 /\
  training_pipeline.clean_numeric (str "g") (str "180g") = Num 180 /\
  training_pipeline.clean_numeric (str "mAh") (str "3,600mAh") = Num 3600 /\
  training_pipeline.clean_numeric (str "g") (str "heavy") = NaN /\
  feq (Num 180) (Num 180.0).
Proof.
  intros -> Hn digits.
  destruct (strip_unit_and_commas_suffix u us n Hn) as [H1 H2].
  unfold training_pipeline.clean_numeric. rewrite H1, H2.
  repeat split; try (vm_compute; reflexivity).
  intros s Hs. unfold to_numeric_coerce. rewrite Hs. reflexivity.
Qed.

Lemma clean_numeric_strips_unit_witness :
  training_pipeline.clean_numeric (str "inches") (str "6.1" ++ str " " ++ str "inches")
    = to_numeric_coerce (str "6.1") /\
  training_pipeline.clean_numeric (str "inches") (str "6.1" ++ str "inches")
    = to_numeric_coerce (str "6.1").
Proof.
  pose proof (clean_numeric_strips_unit (str "inches") (str "6.1") 105
                (str "nches") eq_refl) as H.
  assert (Hn : Forall (fun c : N => c <> 105 /\ c <> 32) (str "6.1")).
  { repeat constructor; vm_compute; discriminate. }
  destruct (H Hn) as (H1 & H2 & _).
  split; [exact H1|exact H2].
Defined.

(** C3. On a price written with the rupee sign U+20B9 the code yields
    [NaN]: the class of the pattern holds the three code points U+00E2,
    U+201A, U+00B9, not U+20B9, so the sign stays in the text and the
    text is not a number.  The same price written with those three code
    points, or with the "INR" prefix, cleans to 120000. *)
Theorem clean_price_rupee_sign :
  training_pipeline.strip_price (8377 :: str "1,20,000") = 8377 :: str "120000" /\
  training_pipeline.clean_price_value (8377 :: str "1,20,000") = NaN /\
  training_pipeline.clean_price_value ([226; 8218; 185] ++ str "1,20,000") = Num 120000 /\
  training_pipeline.clean_price_value (str "INR 1,20,000") = Num 120000 /\
  feq (Num 120000) (Num 120000.0).
Proof.
  repeat split; vm_compute; reflexivity.
Qed.

(** ** Properties of the predictor and of the request handler *)

Import prediction_pipeline application.

Lemma bind_ret_l {A B : Type} (x : A) (f : A -> M B) : bind (ret x) f = f x.
Proof.
  unfold bind, ret. destruct (f x) as [t r]. reflexivity.
Qed.

(** What the constructor leaves in the predictor: both objects when
    both files load, neither otherwise. *)
Lemma init_cases (fs : gmap pystr file) (mp sp : pystr) :
  (exists m s, pickle_load fs mp = Ok m /\ pickle_load fs sp = Ok s /\
     init fs mp sp = Ok {| model_path := mp; scaler_path := sp;
                           model := Some m; scaler := Some s |})
  \/
  (((exists e, pickle_load fs mp = Raise e) \/ (exists e, pickle_load fs sp = Raise e)) /\
   init fs mp sp = Ok {| model_path := mp; scaler_path := sp;
                         model := None; scaler := None |}).
Proof.
  unfold init, load_model, load_scaler, rbind.
  destruct (pickle_load fs mp) as [m|e] eqn:Em.
  - destruct (pickle_load fs sp) as [s|e] eqn:Es.
    + left. exists m, s. repeat split.
    + right. split; [right; exists e; reflexivity|].
      destruct (is_FileNotFoundError e); reflexivity.
  - right. split; [left; exists e; reflexivity|].
    destruct (is_FileNotFoundError e); reflexivity.
Qed.

Lemma init_not_loaded (fs : gmap pystr file) (mp sp : pystr) :
  (exists e, pickle_load fs mp = Raise e) \/ (exists e, pickle_load fs sp = Raise e) ->
  init fs mp sp = Ok {| model_path := mp; scaler_path := sp;
                        model := None; scaler := None |}.
Proof.
  intros H. destruct (init_cases fs mp sp) as [(m & s & Hm & Hs & _)|[_ Hi]];
    [|exact Hi].
  destruct H as [[e He]|[e He]]; congruence.
Qed.

(** Without a model or without a scaler the call raises the wrapped
    not-loaded exception and makes no call. *)
Lemma make_prediction_None (self : ModelPredictor) (input_data : list pyval) :
  model self = None \/ scaler self = None ->
  make_prediction self input_data =
  ([], Raise (CustomException (str "Error in making prediction: " ++ not_loaded))).
Proof.
  intros H. unfold make_prediction.
  destruct (model self) as [m|], (scaler self) as [s|];
    try reflexivity.
  destruct H; discriminate.
Qed.

(** With both objects the first thing a prediction does is build the
    array. *)
Lemma make_prediction_loaded (self : ModelPredictor) (m s : pyobject)
      (input_data : list pyval) :
  model self = Some m -> scaler self = Some s ->
  exists t r, make_prediction self input_data = (CallArray input_data :: t, r).
Proof.
  intros Hm Hs. unfold make_prediction. rewrite Hm, Hs.
  unfold try_except, bind, call, ret, raise.
  destruct (getitem (np_array input_data) 4) as [x|e]; cbn; [|eauto].
  destruct (speed_of_scalar x) as [q|e]; cbn; [|eauto].
  destruct (obj_transform s _) as [X|e]; cbn; [|eauto].
  destruct (obj_predict m X) as [y|e]; cbn; eauto.
Qed.

Lemma required_present (data : gmap pystr pyval) :
  forallb (fun feature => bool_decide (is_Some (data !! feature)))
          required_features = true ->
  forall feature, In feature required_features -> is_Some (data !! feature).
Proof.
  intros H feature Hin.
  rewrite forallb_forall in H. specialize (H feature Hin).
  apply bool_decide_eq_true in H. exact H.
Qed.

(** The handler on a complete request: the eight fields in order are
    handed to [make_prediction], whose outcome decides the response. *)
Lemma predict_complete (a : app) (data : gmap pystr pyval) :
  MODEL_LOADED a = true ->
  (forall feature, In feature required_features -> is_Some (data !! feature)) ->
  exists input_data,
    map Some input_data = map (fun feature => data !! feature) required_features /\
    predict a data =
    try_except
      (prediction <-
         match predictor a with
         | Some p => make_prediction p input_data
         | None =>
           raise (PyError (str "NameError") (str "name 'predictor' is not defined"))
         end ;;
       ret {| status := 200; json := PredictionBody prediction |})
      (fun e => ret {| status := 500; json := ErrorBody (exc_str e) |}).
Proof.
  intros Hl Hall.
  assert (Hb : forallb (fun feature => bool_decide (is_Some (data !! feature)))
                       required_features = true).
  { apply forallb_forall. intros f Hf. apply bool_decide_eq_true. auto. }
  unfold predict. rewrite Hl, Hb. cbn [negb].
  assert (H8 : Forall (fun f => is_Some (data !! f)) required_features)
    by (apply Forall_forall; intros f Hf; apply Hall; apply list_elem_of_In; exact Hf).
  unfold required_features in H8 |- *.
  repeat match type of H8 with
         | Forall _ (_ :: _) =>
           let Hh := fresh "Hh" in
           apply Forall_cons in H8 as [[? Hh] H8]
         end.
  unfold field. cbn [map].
  repeat match goal with H : data !! _ = Some _ |- _ => rewrite H; clear H end.
  rewrite !bind_ret_l.
  eexists [_; _; _; _; _; _; _; _]. split; reflexivity.
Qed.

Lemma predict_incomplete (a : app) (data : gmap pystr pyval) :
  MODEL_LOADED a = true ->
  forallb (fun feature => bool_decide (is_Some (data !! feature)))
          required_features = false ->
  predict a data = ([], Ok missing_response).
Proof.
  intros Hl Hb. unfold predict. rewrite Hl, Hb. reflexivity.
Qed.

(** With the flag set the handler always answers, with 400, 500 or 200. *)
Lemma predict_status (a : app) (data : gmap pystr pyval) :
  MODEL_LOADED a = true ->
  exists t r, predict a data = (t, Ok r) /\
    (status r = 400 \/ status r = 500 \/ status r = 200)%nat.
Proof.
  intros Hl.
  destruct (forallb (fun feature => bool_decide (is_Some (data !! feature)))
                    required_features) eqn:Hb.
  - destruct (predict_complete a data Hl (required_present data Hb))
      as (input_data & _ & ->).
    destruct (predictor a) as [p|].
    + destruct (make_prediction p input_data) as [t [y|e]];
        cbn; eexists _, _; (split; [reflexivity|]); cbn; auto.
    + cbn. eexists _, _. split; [reflexivity|]. cbn. auto.
  - rewrite (predict_incomplete a data Hl Hb).
    eexists _, _. split; [reflexivity|]. cbn. auto.
Qed.

Lemma startup_cases (fs : gmap pystr file) :
  exists p, startup fs = {| predictor := Some p; MODEL_LOADED := true |} /\
            init fs (str "artifacts/best_model.pkl") (str "artifacts/scaler.pkl") = Ok p.
Proof.
  unfold startup.
  destruct (init_cases fs (str "artifacts/best_model.pkl") (str "artifacts/scaler.pkl"))
    as [(m & s & _ & _ & ->)|[_ ->]]; eexists; split; reflexivity.
Qed.

(** C4 (as amended). Whatever the artifact files are at startup, a
    request whose body lacks any of the eight required fields is
    answered with status 400 and the fixed message "Missing required
    features in input data.", which names no field; no array is built
    and nothing is scaled or predicted, and no exception is raised. *)
Theorem predict_missing_feature (fs : gmap pystr file) (data : gmap pystr pyval)
        (feature : pystr) :
  In feature required_features ->
  data !! feature = None ->
  predict (startup fs) data = ([], Ok missing_response).
Proof.
  intros Hin Hnone.
  destruct (startup_cases fs) as (p & Hs & _).
  apply predict_incomplete; [rewrite Hs; reflexivity|].
  destruct (forallb _ required_features) eqn:Hb; [|reflexivity].
  destruct (required_present data Hb feature Hin) as [v Hv]. congruence.
Qed.

Lemma predict_missing_feature_witness :
  predict (startup sample_files) (delete (str "RAM") sample_data) =
  ([], Ok missing_response).
Proof.
  apply (predict_missing_feature sample_files
           (delete (str "RAM") sample_data) (str "RAM")).
  - vm_compute. right. left. reflexivity.
  - vm_compute. reflexivity.
Defined.

(** C4, the claim as stated fails: for the request without "RAM" the
    answer is the fixed message, in which "RAM" does not occur, and it
    is a response of the handler, not a raised exception. *)
Lemma predict_missing_RAM_not_named :
  predict (startup sample_files) (delete (str "RAM") sample_data) =
    ([], Ok {| status := 400;
               json := ErrorBody (str "Missing required features in input data.") |}) /\
  contains (str "RAM") (str "Missing required features in input data.") = false /\
  contains (lower (str "RAM")) (lower (str "Missing required features in input data.")) = false.
Proof.
  repeat split; vm_compute; reflexivity.
Qed.

(** C5. When the model file or the scaler file fails to load at
    startup, the predictor holds neither object, every call of
    [make_prediction] raises the exception that carries the not-loaded
    message, without building an array, scaling or predicting, and the
    handler keeps answering: every request is rejected, with status 400
    or with status 500 and that message. *)
Theorem predict_rejects_when_not_loaded (fs : gmap pystr file)
        (input_data : list pyval) (data : gmap pystr pyval) :
  (exists e, pickle_load fs (str "artifacts/best_model.pkl") = Raise e) \/
  (exists e, pickle_load fs (str "artifacts/scaler.pkl") = Raise e) ->
  exists p,
    startup fs = {| predictor := Some p; MODEL_LOADED := true |} /\
    model p = None /\ scaler p = None /\
    make_prediction p input_data =
      ([], Raise (CustomException (str "Error in making prediction: " ++ not_loaded))) /\
    exists r, predict (startup fs) data = ([], Ok r) /\
              (r = missing_response \/ r = not_loaded_response).
Proof.
  intros Hfail.
  destruct (startup_cases fs) as (p & Hs & Hi).
  rewrite (init_not_loaded _ _ _ Hfail) in Hi. injection Hi as <-.
  eexists. split; [exact Hs|]. cbn [model scaler].
  split; [reflexivity|]. split; [reflexivity|]. split.
  - apply make_prediction_None. left. reflexivity.
  - assert (Hl : MODEL_LOADED (startup fs) = true) by (rewrite Hs; reflexivity).
    destruct (forallb (fun feature => bool_decide (is_Some (data !! feature)))
                      required_features) eqn:Hb.
    + destruct (predict_complete _ data Hl (required_present data Hb))
        as (input & _ & ->).
      rewrite Hs. cbn [predictor].
      rewrite make_prediction_None by (left; reflexivity).
      exists not_loaded_response. split; [reflexivity|]. right. reflexivity.
    + rewrite (predict_incomplete _ data Hl Hb).
      exists missing_response. split; [reflexivity|]. left. reflexivity.
Qed.

Lemma predict_rejects_when_not_loaded_witness :
  exists p,
    startup model_only_files = {| predictor := Some p; MODEL_LOADED := true |} /\
    model p = None /\ scaler p = None /\
    make_prediction p sample_input =
      ([], Raise (CustomException (str "Error in making prediction: " ++ not_loaded))) /\
    exists r, predict (startup model_only_files) sample_data = ([], Ok r) /\
              (r = missing_response \/ r = not_loaded_response).
Proof.
  apply (predict_rejects_when_not_loaded model_only_files sample_input sample_data).
  right. eexists. vm_compute. reflexivity.
Defined.

(** C6. The constructor never raises: it returns a predictor that
    holds both objects when both files load and neither otherwise; so
    the flag of the application is set whatever the files are, no
    request is answered with status 503, and with a file that fails to
    load a complete request is answered with status 500 and the wrapped
    not-loaded message of [make_prediction]. *)
Theorem ModelPredictor_init_never_raises (fs : gmap pystr file) (mp sp : pystr)
        (data : gmap pystr pyval) :
  (exists p, init fs mp sp = Ok p /\
     ((exists m s, pickle_load fs mp = Ok m /\ pickle_load fs sp = Ok s /\
                   model p = Some m /\ scaler p = Some s)
      \/
      (((exists e, pickle_load fs mp = Raise e) \/
        (exists e, pickle_load fs sp = Raise e)) /\
       model p = None /\ scaler p = None))) /\
  MODEL_LOADED (startup fs) = true /\
  (exists t r, predict (startup fs) data = (t, Ok r) /\ status r <> 503%nat) /\
  (((exists e, pickle_load fs (str "artifacts/best_model.pkl") = Raise e) \/
    (exists e, pickle_load fs (str "artifacts/scaler.pkl") = Raise e)) ->
   (forall feature, In feature required_features -> is_Some (data !! feature)) ->
   predict (startup fs) data = ([], Ok not_loaded_response)).
Proof.
  destruct (startup_cases fs) as (p0 & Hs & Hi).
  assert (Hl : MODEL_LOADED (startup fs) = true) by (rewrite Hs; reflexivity).
  split; [|split; [|split]].
  - destruct (init_cases fs mp sp) as [(m & s & Hm & Hsc & ->)|[Hf ->]];
      eexists; (split; [reflexivity|]); cbn [model scaler].
    + left. exists m, s. repeat split; assumption.
    + right. repeat split; assumption.
  - exact Hl.
  - destruct (predict_status (startup fs) data Hl) as (t & r & Hp & Hst).
    exists t, r. split; [exact Hp|]. lia.
  - intros Hfail Hall.
    rewrite (init_not_loaded _ _ _ Hfail) in Hi. injection Hi as <-.
    destruct (predict_complete _ data Hl Hall) as (input & _ & ->).
    rewrite Hs. cbn [predictor].
    rewrite make_prediction_None by (left; reflexivity). reflexivity.
Qed.

(** ** The array of a prediction and the text of the speed *)

Lemma length_lower_char (c : codepoint) : (length (lower_char c) <= 2)%nat.
Proof.
  unfold lower_char.
  destruct ((65 <=? c) && (c <=? 90)); [simpl; lia|].
  destruct (c =? 304); [simpl; lia|].
  destruct (c =? 8490); simpl; lia.
Qed.

(** Lowering at most doubles the length of a string. *)
Lemma length_lower (s : pystr) : (length (lower s) <= 2 * length s)%nat.
Proof.
  unfold lower. induction s as [|c s IH]; [simpl; lia|].
  cbn [flat_map]. rewrite length_app. cbn [length].
  pose proof (length_lower_char c). lia.
Qed.

Lemma max_width_positive (vals : list pyval) : (1 <= max_width vals)%nat.
Proof.
  unfold max_width. induction vals as [|v vals IH]; simpl; lia.
Qed.

(** The array is as wide as every element asks. *)
Lemma max_width_ge (vals : list pyval) (v : pyval) :
  In v vals -> (item_width v <= max_width vals)%nat.
Proof.
  unfold max_width. induction vals as [|v' vals IH]; intros H; [destruct H|].
  cbn [map fold_right]. destruct H as [->|H]; [lia|].
  specialize (IH H). lia.
Qed.

Lemma processor_speeds_entries_ok :
  forallb entry_ok prediction_pipeline.processor_speeds = true.
Proof. vm_compute. reflexivity. Qed.

Lemma matched_entry (key : pystr) (value : Q) (name : pystr) :
  In (key, value) prediction_pipeline.processor_speeds ->
  is_substring (lower key) (lower name) ->
  (4 <= length name)%nat /\
  (length (float_str (Num value)) <= 4)%nat /\
  exists q, parse_float (float_str (Num value)) = Some (Num q) /\ (q == value)%Q.
Proof.
  intros Hin Hsub.
  pose proof processor_speeds_entries_ok as Hok.
  rewrite forallb_forall in Hok. specialize (Hok _ Hin).
  unfold entry_ok in Hok.
  apply andb_true_iff in Hok as [Hok Hp].
  apply andb_true_iff in Hok as [Hk Hv].
  apply Nat.leb_le in Hk, Hv.
  apply is_substring_length in Hsub.
  pose proof (length_lower name).
  split; [lia|]. split; [exact Hv|].
  destruct (parse_float (float_str (Num value))) as [[| |q]|];
    try discriminate.
  exists q. split; [reflexivity|]. apply Qeq_bool_iff. exact Hp.
Qed.

(** The resolver either returns the value of an entry that matches, or
    the default when none does. *)
Lemma get_processor_speed_cases (name : pystr) :
  (exists key,
      In (key, get_processor_speed name) prediction_pipeline.processor_speeds /\
      is_substring (lower key) (lower name))
  \/
  ((forall key value, In (key, value) prediction_pipeline.processor_speeds ->
      ~ is_substring (lower key) (lower name)) /\
   get_processor_speed name = 2.0%Q).
Proof.
  unfold get_processor_speed.
  destruct (first_match_spec prediction_pipeline.processor_speeds 2.0%Q name)
    as [(i & key & value & Hi & Hm & _ & Hres)|[Hnone Hres]].
  - left. exists key. rewrite Hres. split; [|exact Hm].
    apply list_elem_of_In. eapply list_elem_of_lookup_2. exact Hi.
  - right. split; assumption.
Qed.

(** In an array wide enough for the processor name, the text stored
    for the speed reads back as the speed. *)
Lemma speed_text_reads_back (name : pystr) (w : nat) :
  (length name <= w)%nat -> (1 <= w)%nat ->
  exists q,
    parse_float (take w (float_str (Num (get_processor_speed name)))) = Some (Num q) /\
    (q == get_processor_speed name)%Q.
Proof.
  intros Hname Hw.
  destruct (get_processor_speed_cases name) as [(key & Hin & Hsub)|[_ ->]].
  - destruct (matched_entry _ _ _ Hin Hsub) as (H4 & Hlen & q & Hq & Heq).
    rewrite take_ge by lia. exists q. split; assumption.
  - destruct w as [|[|[|w]]]; [lia| | |].
    + exists 2%Q. split; vm_compute; reflexivity.
    + exists 2%Q. split; vm_compute; reflexivity.
    + rewrite take_ge by (vm_compute; lia).
      exists 2%Q. split; vm_compute; reflexivity.
Qed.

(** With a string among the elements the array is a unicode array,
    and an element read from it is the text stored for it. *)
Lemma np_array_with_string (vals : list pyval) (i : nat) (v : pyval) :
  existsb is_PStr vals = true ->
  vals !! i = Some v ->
  np_array vals =
    StrArray (max_width vals) (map (fun v => take (max_width vals) (py_str v)) vals) /\
  getitem (np_array vals) i = Ok (NpStr (take (max_width vals) (py_str v))).
Proof.
  intros Hex H. unfold np_array. rewrite Hex. split; [reflexivity|].
  unfold getitem.
  change (map ?f vals) with (f <$> vals).
  rewrite list_lookup_fmap, H. reflexivity.
Qed.

(** A string element is stored whole. *)
Lemma take_string_element (vals : list pyval) (i : nat) (s : pystr) :
  vals !! i = Some (PStr s) ->
  existsb is_PStr vals = true /\ take (max_width vals) (py_str (PStr s)) = s.
Proof.
  intros H.
  assert (Hin : In (PStr s) vals)
    by (apply list_elem_of_In; eapply list_elem_of_lookup_2; exact H).
  split.
  - apply existsb_exists. exists (PStr s). split; [exact Hin|reflexivity].
  - pose proof (max_width_ge vals _ Hin) as Hw. cbn [item_width] in Hw.
    apply take_ge. exact Hw.
Qed.

(** A field that is a number makes the array at least 21 wide. *)
Lemma max_width_number (vals : list pyval) :
  Exists (fun v => is_PStr v = false) vals -> (21 <= max_width vals)%nat.
Proof.
  intros H. apply Exists_exists in H as (v & Hin & Hv).
  apply list_elem_of_In in Hin.
  pose proof (max_width_ge vals v Hin) as Hw.
  destruct v; cbn in Hw, Hv; try discriminate; lia.
Qed.

(** An array narrower than 3 holds short strings only. *)
Lemma narrow_array_fields (vals : list pyval) :
  (max_width vals < 3)%nat ->
  Forall (fun v => exists s, v = PStr s /\ (length s < 3)%nat) vals.
Proof.
  intros Hw. apply Forall_forall. intros v Hin.
  apply list_elem_of_In in Hin.
  pose proof (max_width_ge vals v Hin) as Hv.
  destruct v as [z|x|s]; cbn in Hv; try lia.
  exists s. split; [reflexivity|lia].
Qed.

(** C10 (as amended). With a string among its fields,
    [make_prediction] turns the input list into one fixed-width unicode
    array before it resolves the processor, so every numeric field is
    stored as its text, and the processor is resolved from the text
    stored at position 4 (the processor name itself when that field is
    a string).  The width is the largest of: the lengths of the string
    fields, 21 for an integer field, 32 for a float field, and 1.  The
    text of the speed is cut to that width when it is written at
    position 4; it is stored in full whenever some field is a number or
    the processor matches an entry of the table; it is cut only when
    all fields are strings shorter than 3 and the speed is the default,
    "2.0" becoming "2" or "2."; and in every case the text at position
    4 reads back as the resolved speed, so the value handed to the
    scaler is the speed. *)
Theorem make_prediction_speed_text (self : ModelPredictor) (m s : pyobject)
        (input_data : list pyval) (processor : pyval) :
  model self = Some m ->
  scaler self = Some s ->
  existsb is_PStr input_data = true ->
  input_data !! 4%nat = Some processor ->
  let w := max_width input_data in
  let name := take w (py_str processor) in
  let speed := get_processor_speed name in
  let stored := take w (float_str (Num speed)) in
  let items := map (fun v => take w (py_str v)) input_data in
  np_array input_data = StrArray w items /\
  (forall v, In v input_data -> (item_width v <= w)%nat) /\
  (forall p, processor = PStr p -> name = p) /\
  (exists t r,
      make_prediction self input_data =
      (CallArray input_data ::
       CallTransform [StrArray w (<[4%nat := stored]> items)] :: t, r)) /\
  (Exists (fun v => is_PStr v = false) input_data \/
   (exists key value,
       In (key, value) processor_speeds /\ is_substring (lower key) (lower name)) ->
   stored = float_str (Num speed)) /\
  (stored <> float_str (Num speed) ->
   speed = 2.0%Q /\
   Forall (fun v => exists s', v = PStr s' /\ (length s' < 3)%nat) input_data /\
   (stored = str "2" \/ stored = str "2.")) /\
  exists q, parse_float stored = Some (Num q) /\ (q == speed)%Q.
Proof.
  intros Hm Hs Hex H4 w name speed stored items.
  destruct (np_array_with_string input_data 4 processor Hex H4) as (Harr & Hget).
  pose proof (max_width_positive input_data) as Hpos.
  fold w in Harr, Hget, Hpos. fold items in Harr. fold name in Hget.
  assert (Hname : (length name <= w)%nat)
    by (unfold name; rewrite length_take; lia).
  assert (Hfull : (length (float_str (Num speed)) <= w)%nat -> stored = float_str (Num speed))
    by (intros H; apply take_ge; exact H).
  assert (Hmatch : forall key value,
             In (key, value) processor_speeds ->
             is_substring (lower key) (lower name) ->
             (length (float_str (Num speed)) <= w)%nat).
  { intros key value Hin Hsub.
    destruct (get_processor_speed_cases name) as [(key' & Hin' & Hsub')|[Hnone _]].
    - destruct (matched_entry _ _ _ Hin' Hsub') as (Hlen & Hv & _).
      fold speed in Hv. lia.
    - destruct (Hnone key value Hin Hsub). }
  split; [exact Harr|].
  split; [intros v Hv; apply max_width_ge; exact Hv|].
  split.
  { intros p ->. apply (take_string_element input_data 4 p H4). }
  split; [|split; [|split]].
  - unfold make_prediction. rewrite Hm, Hs.
    unfold try_except, bind, call, ret, raise.
    rewrite Hget. cbn [speed_of_scalar Datatypes.app].
    rewrite Harr. cbn [setitem_float]. fold speed. fold stored.
    destruct (obj_transform s _) as [X|e]; cbn; [|eauto].
    destruct (obj_predict m X) as [y|e]; cbn; eauto.
  - intros [Hnum|(key & value & Hin & Hsub)]; apply Hfull.
    + pose proof (max_width_number input_data Hnum) as H21. fold w in H21.
      destruct (get_processor_speed_cases name) as [(key' & Hin' & Hsub')|[_ Hd]].
      * destruct (matched_entry _ _ _ Hin' Hsub') as (_ & Hv & _).
        fold speed in Hv. lia.
      * unfold speed. rewrite Hd.
        change (length (float_str (Num 2.0%Q))) with 3%nat. lia.
    + exact (Hmatch key value Hin Hsub).
  - intros Hcut.
    assert (Hlt : (w < length (float_str (Num speed)))%nat).
    { destruct (Nat.le_gt_cases (length (float_str (Num speed))) w) as [Hle|Hlt];
        [destruct (Hcut (Hfull Hle))|exact Hlt]. }
    destruct (get_processor_speed_cases name) as [(key' & Hin' & Hsub')|[_ Hd]].
    + pose proof (Hmatch key' _ Hin' Hsub'). lia.
    + fold speed in Hd. split; [exact Hd|].
      rewrite Hd in Hlt. change (length (float_str (Num 2.0%Q))) with 3%nat in Hlt.
      split; [apply narrow_array_fields; exact Hlt|].
      unfold stored. rewrite Hd.
      destruct w as [|[|[|w']]]; [lia| | |lia].
      * left. reflexivity.
      * right. reflexivity.
  - apply speed_text_reads_back; assumption.
Qed.

Lemma make_prediction_speed_text_witness :
  exists t r,
    make_prediction sample_predictor sample_input =
    (CallArray sample_input ::
     CallTransform
       [StrArray 32 [ str "180"; str "8"; str "16"; str "48"; str "3.78";
                      str "4500"; str "6.5"; str "2023" ]] :: t, r).
Proof.
  destruct (make_prediction_speed_text sample_predictor sample_model sample_scaler
              sample_input (PStr (str "A17 Bionic")) eq_refl eq_refl eq_refl eq_refl)
    as (_ & _ & _ & H & _).
  exact H.
Defined.

(** C10, the claim as stated fails.  In [short_input] the longest text
    of a field has one code point and the text of the speed, "2.0", has
    three, yet the array is 21 wide and "2.0" is stored in full; in the
    example request the speed "3.78" is stored in full in an array 32
    wide. *)
Lemma speed_text_not_cut :
  fold_right Nat.max 0%nat (map (fun v => length (py_str v)) short_input) = 1%nat /\
  length (float_str (Num (get_processor_speed (str "X")))) = 3%nat /\
  setitem_float (np_array short_input) 4 (get_processor_speed (str "X")) =
    StrArray 21 [ str "1"; str "2"; str "3"; str "4"; str "2.0";
                  str "5"; str "6"; str "7" ] /\
  setitem_float (np_array sample_input) 4 (get_processor_speed (str "A17 Bionic")) =
    StrArray 32 [ str "180"; str "8"; str "16"; str "48"; str "3.78";
                  str "4500"; str "6.5"; str "2023" ].
Proof.
  repeat split; vm_compute; reflexivity.
Qed.

(** The one case in which the text is cut: every field a short string.
    The array is 1 wide, "2.0" is stored as "2", and the scaler still
    receives 2.0. *)
Example speed_text_cut_reads_back :
  make_prediction sample_predictor short_text_input =
  ([ CallArray short_text_input;
     CallTransform [StrArray 1 [ str "1"; str "2"; str "3"; str "4"; str "2";
                                 str "5"; str "6"; str "7" ]];
     CallPredict [[ Num 1; Num 2; Num 3; Num 4; Num 2; Num 5; Num 6; Num 7 ]] ],
   Ok [Num 2]).
Proof. vm_compute. reflexivity. Qed.

(** ** Properties of the training procedure *)

Import training_pipeline.

(** [dropna] keeps, in order, exactly the rows without a null cell in
    the named columns. *)
Lemma dropna_spec (subset : list pystr) (df kept : DataFrame) :
  dropna subset df = Ok kept ->
  kept = List.filter (complete subset) df /\
  forall r, In r kept <->
            In r df /\
            forall name, In name subset ->
                         cell_isnull (cell_at r name) = false.
Proof.
  unfold dropna. destruct (List.find _ subset); [discriminate|].
  intros [= <-]. split; [reflexivity|].
  intros r. rewrite filter_In. unfold complete. rewrite forallb_forall.
  split; intros [Hin Hc]; (split; [exact Hin|]); intros name Hn;
    specialize (Hc name Hn).
  - apply negb_true_iff. exact Hc.
  - apply negb_true_iff. exact Hc.
Qed.

Lemma floats_of_cells_length (cs : list cell) (xs : list pyfloat) :
  floats_of_cells cs = Ok xs -> length xs = length cs.
Proof.
  revert xs. induction cs as [|c cs IH]; intros xs; cbn.
  - intros [= <-]. reflexivity.
  - unfold rbind. destruct (float_of_cell c); [|discriminate].
    destruct (floats_of_cells cs) as [xs'|]; [|discriminate].
    intros [= <-]. cbn. f_equal. apply IH. reflexivity.
Qed.

(** The rows of the float matrix of a selection are as long as the
    list of selected columns. *)
Lemma floats_of_rows_width (names : list pystr) (df : DataFrame) (X : matrix) :
  floats_of_rows (select names df) = Ok X ->
  Forall (fun row => length row = length names) X.
Proof.
  unfold select. revert X. induction df as [|r df IH]; intros X; cbn.
  - intros [= <-]. constructor.
  - unfold rbind.
    destruct (floats_of_cells _) as [xs|] eqn:Hxs; [|discriminate].
    destruct (floats_of_rows _) as [rs|]; [|discriminate].
    intros [= <-]. constructor; [|apply IH; reflexivity].
    apply floats_of_cells_length in Hxs. rewrite Hxs. apply length_map.
Qed.

Lemma check_array_ok (X : matrix) :
  X <> [] -> existsb (existsb sklearn.is_Inf) X = false ->
  sklearn.check_array X = Ok X.
Proof.
  intros Hne Hfin. unfold sklearn.check_array.
  rewrite bool_decide_eq_false_2 by exact Hne. rewrite Hfin. reflexivity.
Qed.

Lemma length_columns (X : matrix) :
  length (sklearn.columns X) = sklearn.n_features X.
Proof.
  unfold sklearn.columns. rewrite length_map. apply length_seq.
Qed.

(** On a non-empty matrix of finite or missing entries whose rows have
    the same length, [fit] succeeds and [transform] with the fitted
    scaler succeeds on the same matrix. *)
Lemma fit_then_transform_ok (fsqrt : Q -> Q) (X : matrix) (n : nat) :
  X <> [] -> existsb (existsb sklearn.is_Inf) X = false ->
  Forall (fun row => length row = n) X ->
  exists scaler,
    sklearn.fit fsqrt X = Ok scaler /\
    sklearn.mean_ scaler = map sklearn.nanmean (sklearn.columns X) /\
    sklearn.scale_ scaler =
      map (fun c => sklearn.scale_of fsqrt (sklearn.nanvar c)) (sklearn.columns X) /\
    sklearn.transform scaler X =
      Ok (map (fun row => sklearn.scale_row row (sklearn.mean_ scaler)
                                            (sklearn.scale_ scaler)) X).
Proof.
  intros Hne Hfin Hrect.
  unfold sklearn.fit, sklearn.transform.
  rewrite (check_array_ok X Hne Hfin).
  eexists. split; [reflexivity|]. cbn [sklearn.mean_ sklearn.scale_].
  split; [reflexivity|]. split; [reflexivity|].
  rewrite length_map, length_columns.
  assert (Hn : sklearn.n_features X = n).
  { destruct X as [|row X]; [contradiction|].
    cbn. apply Forall_cons in Hrect as [Hrow _]. exact Hrow. }
  rewrite Hn.
  assert (Hall : forallb (fun row => (length row =? n)%nat) X = true).
  { apply forallb_forall. intros row Hin.
    rewrite Forall_forall in Hrect.
    apply Nat.eqb_eq, Hrect, list_elem_of_In, Hin. }
  rewrite Hall. reflexivity.
Qed.

(** [fit_transform] is [fit] followed by [transform] on the same
    matrix: it returns a scaler and a matrix exactly when [fit] returns
    that scaler and [transform] with it returns that matrix. *)
Lemma fit_transform_spec (fsqrt : Q -> Q) (X : matrix)
      (scaler : sklearn.StandardScaler) (X_scaled : matrix) :
  sklearn.fit_transform fsqrt X = Ok (scaler, X_scaled) <->
  sklearn.fit fsqrt X = Ok scaler /\ sklearn.transform scaler X = Ok X_scaled.
Proof.
  unfold sklearn.fit_transform. split.
  - destruct (sklearn.fit fsqrt X) as [sc|]; [|discriminate].
    destruct (sklearn.transform sc X) as [Xs|] eqn:Ht; [|discriminate].
    intros [= <- <-]. split; [reflexivity|exact Ht].
  - intros [-> ->]. reflexivity.
Qed.

(** Float rows are converted as they are. *)
Lemma as_float_matrix_FloatArray (X : matrix) :
  as_float_matrix (map FloatArray X) = Ok X.
Proof.
  induction X as [|row X IH]; [reflexivity|].
  cbn. rewrite IH. reflexivity.
Qed.

(** *** The cleaning, row by row *)

Lemma has_column_true (name : pystr) (df : DataFrame) :
  has_column name df = true <-> forall r, In r df -> is_Some (r !! name).
Proof.
  unfold has_column. rewrite forallb_forall.
  split; intros H r Hin; specialize (H r Hin).
  - apply bool_decide_eq_true in H. exact H.
  - apply bool_decide_eq_true. exact H.
Qed.

Lemma zip_with_map_same {A B C : Type} (f : A -> B -> C) (g : A -> B) (l : list A) :
  zip_with f l (map g l) = map (fun x => f x (g x)) l.
Proof.
  induction l as [|x l IH]; [reflexivity|]. cbn. rewrite IH. reflexivity.
Qed.

Lemma getcol_ok (name : pystr) (df : DataFrame) :
  has_column name df = true ->
  getcol df name = Ok (map (fun r => cell_at r name) df).
Proof.
  intros H. unfold getcol. rewrite H. reflexivity.
Qed.

(** Assigning a column leaves the other columns as they are. *)
Lemma has_column_update (name name' : pystr) (f : gmap pystr cell -> cell)
      (df : DataFrame) :
  name <> name' ->
  has_column name' (map (fun r => <[name := f r]> r) df) = has_column name' df.
Proof.
  intros Hne. unfold has_column. induction df as [|r df IH]; [reflexivity|].
  cbn [map forallb]. rewrite IH, lookup_insert_ne by exact Hne. reflexivity.
Qed.

Lemma column_update (name name' : pystr) (f : gmap pystr cell -> cell)
      (df : DataFrame) :
  name <> name' ->
  map (fun r => cell_at r name') (map (fun r => <[name := f r]> r) df) =
  map (fun r => cell_at r name') df.
Proof.
  intros Hne. rewrite map_map. apply map_ext. intros r.
  unfold cell_at. rewrite lookup_insert_ne by exact Hne. reflexivity.
Qed.

(** Assigning to a column a function of a column, row by row. *)
Lemma setcol_map (name name' : pystr) (f : cell -> cell) (df : DataFrame) :
  setcol df name (map f (map (fun r => cell_at r name') df)) =
  map (fun r => <[name := f (cell_at r name')]> r) df.
Proof.
  unfold setcol. rewrite map_map. apply zip_with_map_same.
Qed.

(** One column cleaned: every row gets the cleaned cell. *)
Lemma clean_column_rows (name unit : pystr) (df : DataFrame) :
  has_column name df = true ->
  numeric_dtype (map (fun r => cell_at r name) df) = false ->
  clean_column name unit df =
  Ok (map (fun r => <[name := clean_numeric_cell unit (cell_at r name)]> r) df).
Proof.
  intros Hc Hd. unfold clean_column. rewrite (getcol_ok _ _ Hc). cbn [rbind].
  unfold clean_numeric_column, str_accessor. rewrite Hd. cbn [rbind].
  rewrite setcol_map. reflexivity.
Qed.

Lemma apply_get_processor_speed_ok (series : list cell) :
  Forall (fun c => exists s, c = Text s) series ->
  apply_get_processor_speed series = Ok (map speed_cell series).
Proof.
  induction 1 as [|c series [s ->] _ IH]; [reflexivity|].
  cbn. rewrite IH. reflexivity.
Qed.

Ltac names_differ := vm_compute; discriminate.

Ltac original_column :=
  rewrite ?has_column_update, ?column_update by names_differ.

(** On a frame that has the columns, whose text columns are [object]
    columns and whose processor cells are text, the cleaning succeeds
    and cleans every row by [clean_row]. *)
Lemma clean_frame_rows (df : DataFrame) :
  (forall name, In name (str "Processor" :: text_columns) -> has_column name df = true) ->
  (forall name, In name text_columns ->
                numeric_dtype (map (fun r => cell_at r name) df) = false) ->
  Forall (fun r => exists s, cell_at r (str "Processor") = Text s) df ->
  clean_frame df = Ok (map clean_row df).
Proof.
  intros Hc Hdtype Hproc.
  unfold clean_frame.
  rewrite (clean_column_rows (str "Mobile Weight"))
    by (first [apply Hc | apply Hdtype]; cbn; tauto).
  cbn [rbind].
  rewrite (clean_column_rows (str "RAM"))
    by (original_column; first [apply Hc | apply Hdtype]; cbn; tauto).
  cbn [rbind].
  rewrite (clean_column_rows (str "Front Camera"))
    by (original_column; first [apply Hc | apply Hdtype]; cbn; tauto).
  cbn [rbind].
  rewrite (clean_column_rows (str "Back Camera"))
    by (original_column; first [apply Hc | apply Hdtype]; cbn; tauto).
  cbn [rbind].
  rewrite (clean_column_rows (str "Battery Capacity"))
    by (original_column; first [apply Hc | apply Hdtype]; cbn; tauto).
  cbn [rbind].
  rewrite (clean_column_rows (str "Screen Size"))
    by (original_column; first [apply Hc | apply Hdtype]; cbn; tauto).
  cbn [rbind].
  rewrite (getcol_ok (str "Processor"))
    by (original_column; apply Hc; cbn; tauto).
  cbn [rbind].
  rewrite apply_get_processor_speed_ok.
  2:{ original_column.
      apply Forall_forall. intros c Hin.
      apply list_elem_of_In, in_map_iff in Hin as (r & <- & Hr).
      rewrite Forall_forall in Hproc. apply Hproc, list_elem_of_In, Hr. }
  cbn [rbind]. rewrite setcol_map.
  rewrite (getcol_ok (str "Launched Price (India)"))
    by (original_column; apply Hc; cbn; tauto).
  cbn [rbind]. unfold clean_price, str_accessor.
  match goal with
  | |- context [numeric_dtype ?c] =>
    assert (Hd : numeric_dtype c = false)
      by (original_column; apply Hdtype; cbn; tauto);
    rewrite Hd
  end.
  cbn [rbind]. rewrite setcol_map. f_equal.
  rewrite !map_map. apply map_ext. intros r. reflexivity.
Qed.

(** A row whose weight is not a number is not among the rows kept. *)
Lemma unparsable_weight_dropped (df kept : DataFrame) (r : gmap pystr cell) (w : pystr) :
  dropna (features ++ [target]) (map clean_row df) = Ok kept ->
  r !! str "Mobile Weight" = Some (Text w) ->
  parse_float (strip_unit_and_commas (str "g") w) = None ->
  ~ In (clean_row r) kept.
Proof.
  intros Hdrop Hw Hparse Hin.
  apply (dropna_spec _ _ _ Hdrop) in Hin as [_ Hnull].
  specialize (Hnull (str "Mobile Weight")).
  assert (Hcell : cell_at (clean_row r) (str "Mobile Weight") = Number NaN).
  { unfold clean_row, cell_at.
    rewrite !lookup_insert_ne by names_differ.
    rewrite lookup_insert_eq, Hw. unfold default, id.
    cbn [clean_numeric_cell].
    unfold clean_numeric, to_numeric_coerce. rewrite Hparse. reflexivity. }
  rewrite Hcell in Hnull. cbn in Hnull.
  assert (true = false) by (apply Hnull; cbn; tauto). discriminate.
Qed.

Lemma artifact_paths_differ : training_pipeline.scaler_path <> training_pipeline.model_path.
Proof. vm_compute. discriminate. Qed.

(** The files written by the training are the ones the predictor
    reads. *)
Lemma init_after_training (fs : gmap pystr file) (model scaler : pyobject) :
  prediction_pipeline.init
    (<[training_pipeline.scaler_path := Pickle scaler]>
       (<[training_pipeline.model_path := Pickle model]> fs))
    (str "artifacts/best_model.pkl") (str "artifacts/scaler.pkl") =
  Ok {| prediction_pipeline.model_path := str "artifacts/best_model.pkl";
        prediction_pipeline.scaler_path := str "artifacts/scaler.pkl";
        prediction_pipeline.model := Some model;
        prediction_pipeline.scaler := Some scaler |}.
Proof.
  unfold prediction_pipeline.init, load_model, load_scaler, rbind, pickle_load.
  change (str "artifacts/best_model.pkl") with training_pipeline.model_path.
  change (str "artifacts/scaler.pkl") with training_pipeline.scaler_path.
  rewrite lookup_insert_ne by exact artifact_paths_differ.
  rewrite !lookup_insert_eq. reflexivity.
Qed.

Section TrainingProperties.

Variable fsqrt : Q -> Q.
Variable RandomForestRegressor_fit :
  nat -> Z -> matrix -> list pyfloat -> result pyobject.

(** C8. After the cleaning, the training keeps exactly the rows with
    no [NaN] in any of the eight features or in the target, fits the
    scaler on the feature matrix of those rows only and transforms that
    matrix with it, fits the regressor with 100 estimators and random
    state 42 on the scaled matrix and the target, and then writes both
    the scaler and the model, which the predictor's constructor loads
    back. *)
Theorem train_and_save_model_steps (df cleaned kept : DataFrame)
        (fs : gmap pystr file) (X : matrix) (y : list pyfloat) :
  clean_frame df = Ok cleaned ->
  dropna (features ++ [target]) cleaned = Ok kept ->
  floats_of_rows (select features kept) = Ok X ->
  floats_of_cells (map (fun r => cell_at r target) kept) = Ok y ->
  X <> [] ->
  existsb (existsb sklearn.is_Inf) X = false ->
  kept = List.filter (complete (features ++ [target])) cleaned /\
  (forall r, In r kept <->
             In r cleaned /\
             forall name, In name (features ++ [target]) ->
                          cell_isnull (cell_at r name) = false) /\
  exists scaler X_scaled,
    sklearn.fit fsqrt X = Ok scaler /\
    sklearn.transform scaler X = Ok X_scaled /\
    forall model,
      RandomForestRegressor_fit 100%nat 42%Z X_scaled y = Ok model ->
      let fs' := <[training_pipeline.scaler_path := Pickle (sklearn.scaler_object scaler)]>
                   (<[training_pipeline.model_path := Pickle model]> fs) in
      train_and_save_model fsqrt RandomForestRegressor_fit df fs =
        (fs', Ok (model, sklearn.scaler_object scaler)) /\
      prediction_pipeline.init fs' (str "artifacts/best_model.pkl")
                               (str "artifacts/scaler.pkl") =
        Ok {| prediction_pipeline.model_path := str "artifacts/best_model.pkl";
              prediction_pipeline.scaler_path := str "artifacts/scaler.pkl";
              prediction_pipeline.model := Some model;
              prediction_pipeline.scaler := Some (sklearn.scaler_object scaler) |}.
Proof.
  intros Hclean Hdrop HX Hy Hne Hfin.
  destruct (dropna_spec _ _ _ Hdrop) as [Hkept Hmem].
  split; [exact Hkept|]. split; [exact Hmem|].
  destruct (fit_then_transform_ok fsqrt X (length features) Hne Hfin
              (floats_of_rows_width _ _ _ HX))
    as (scaler & Hfit & _ & _ & Htr).
  eexists scaler, _. split; [exact Hfit|]. split; [exact Htr|].
  intros model Hmodel fs'. split; [|apply init_after_training].
  unfold train_and_save_model.
  rewrite Hclean. cbn [rbind]. rewrite Hdrop. cbn [rbind].
  rewrite HX. cbn [rbind].
  unfold sklearn.fit_transform. rewrite Hfit, Htr. cbn [rbind].
  rewrite Hy. cbn [rbind]. rewrite Hmodel. reflexivity.
Qed.

(** C9. For every feature matrix [X], [fit_transform] on [X] returns a
    scaler and a scaled matrix exactly when [fit] on [X] returns that
    scaler and [transform] with it, applied to [X], returns that
    matrix.  When [X] has at least one row, rows of one length and no
    infinite entry, [fit] succeeds, and the fitted scaler applied to
    [X] gives exactly the matrix [fit_transform] gives, also after the
    scaler was written to a file and loaded back. *)
Theorem scaler_round_trip (X : matrix) (n : nat) (fs : gmap pystr file) (path : pystr) :
  (forall scaler X_scaled,
      sklearn.fit_transform fsqrt X = Ok (scaler, X_scaled) <->
      sklearn.fit fsqrt X = Ok scaler /\ sklearn.transform scaler X = Ok X_scaled) /\
  (X <> [] ->
   existsb (existsb sklearn.is_Inf) X = false ->
   Forall (fun row => length row = n) X ->
   exists scaler X_scaled,
     sklearn.fit fsqrt X = Ok scaler /\
     sklearn.fit_transform fsqrt X = Ok (scaler, X_scaled) /\
     sklearn.transform scaler X = Ok X_scaled /\
     exists loaded,
       pickle_load (<[path := Pickle (sklearn.scaler_object scaler)]> fs) path = Ok loaded /\
       obj_transform loaded (map FloatArray X) = Ok X_scaled).
Proof.
  split; [intros scaler X_scaled; apply fit_transform_spec|].
  intros Hne Hfin Hrect.
  destruct (fit_then_transform_ok fsqrt X n Hne Hfin Hrect)
    as (scaler & Hfit & _ & _ & Htr).
  eexists scaler, _. split; [exact Hfit|].
  split; [apply fit_transform_spec; split; [exact Hfit|exact Htr]|].
  split; [exact Htr|].
  exists (sklearn.scaler_object scaler). split.
  - unfold pickle_load. rewrite lookup_insert_eq. reflexivity.
  - cbn [obj_transform sklearn.scaler_object].
    rewrite as_float_matrix_FloatArray. exact Htr.
Qed.

End TrainingProperties.

(** A step that returned, returned the value read off its result. *)
Lemma returned_ok {A : Type} (d : A) (r : result A) :
  is_ok r = true -> r = Ok (returned d r).
Proof.
  destruct r; [reflexivity|discriminate].
Qed.

Lemma train_and_save_model_steps_witness :
  sample_X = [ [Num 174; Num 6; Num 12; Num 48; Num 3.78; Num 3600; Num 6.1; Num 2024];
               [Num 190; Num 12; Num 32; Num 50; Num 2.0; Num 5000; Num 6.7; Num 2023] ] /\
  exists scaler model,
    train_and_save_model sample_sqrt sample_fit sample_dataset ∅ =
      (<[training_pipeline.scaler_path := Pickle (sklearn.scaler_object scaler)]>
         (<[training_pipeline.model_path := Pickle model]> ∅),
       Ok (model, sklearn.scaler_object scaler)).
Proof.
  split; [vm_compute; reflexivity|].
  destruct (train_and_save_model_steps sample_sqrt sample_fit sample_dataset
              sample_cleaned sample_kept ∅ sample_X sample_y)
    as (_ & _ & scaler & X_scaled & _ & _ & Hmodel).
  - apply returned_ok. vm_compute. reflexivity.
  - apply returned_ok. vm_compute. reflexivity.
  - apply returned_ok. vm_compute. reflexivity.
  - apply returned_ok. vm_compute. reflexivity.
  - intros H. apply (f_equal (@length _)) in H. vm_compute in H. discriminate.
  - vm_compute. reflexivity.
  - destruct (Hmodel _ eq_refl) as [Htrain _].
    eexists scaler, _. exact Htrain.
Defined.

Lemma scaler_round_trip_witness :
  exists scaler X_scaled,
    sklearn.fit sample_sqrt [[Num 174; Num 6]; [Num 190; Num 12]] = Ok scaler /\
    sklearn.fit_transform sample_sqrt [[Num 174; Num 6]; [Num 190; Num 12]] =
      Ok (scaler, X_scaled) /\
    sklearn.transform scaler [[Num 174; Num 6]; [Num 190; Num 12]] = Ok X_scaled.
Proof.
  destruct (scaler_round_trip sample_sqrt [[Num 174; Num 6]; [Num 190; Num 12]]
              2%nat ∅ training_pipeline.scaler_path) as [_ H].
  destruct H as (scaler & X_scaled & Hfit & Hft & Htr & _).
  - discriminate.
  - reflexivity.
  - repeat constructor.
  - exists scaler, X_scaled. repeat split; assumption.
Defined.

(** * Further properties of the sources *)

(** ** The resolver *)

Lemma Q_same_eq (p q : Q) : Q_same p q = true -> p = q.
Proof.
  destruct p as [a b], q as [c d]. unfold Q_same. cbn.
  intros H. apply andb_true_iff in H as [H1 H2].
  apply Z.eqb_eq in H1. apply Pos.eqb_eq in H2. subst. reflexivity.
Qed.

(** The value depends on the lowered name only. *)
Lemma first_match_lower (table : list (pystr * Q)) (default : Q) (name name' : pystr) :
  lower name = lower name' ->
  first_match table default name = first_match table default name'.
Proof.
  intros H. induction table as [|[k v] rest IH]; [reflexivity|].
  cbn. rewrite H, IH. reflexivity.
Qed.

Lemma processor_speeds_resolve_to_themselves :
  forallb (resolves_to_itself prediction_pipeline.processor_speeds)
          prediction_pipeline.processor_speeds = true.
Proof. vm_compute. reflexivity. Qed.

(** No entry of the table is shadowed by an earlier one: a name that
    is a tabled key up to letter case resolves to the value tabled for
    that key, in the training module and in the prediction module. *)
Theorem tabled_name_any_case (key : pystr) (value : Q) (name : pystr) :
  In (key, value) prediction_pipeline.processor_speeds ->
  lower name = lower key ->
  prediction_pipeline.get_processor_speed name = value /\
  training_pipeline.get_processor_speed name = value.
Proof.
  intros Hin Hlow.
  assert (H : prediction_pipeline.get_processor_speed name = value).
  { unfold prediction_pipeline.get_processor_speed.
    rewrite (first_match_lower _ _ name key Hlow).
    pose proof processor_speeds_resolve_to_themselves as Hok.
    rewrite forallb_forall in Hok. specialize (Hok _ Hin).
    apply Q_same_eq. exact Hok. }
  split; exact H.
Qed.

Lemma tabled_name_any_case_witness :
  prediction_pipeline.get_processor_speed (str "GOOGLE tensor g3") = 2.91%Q /\
  training_pipeline.get_processor_speed (str "GOOGLE tensor g3") = 2.91%Q.
Proof.
  apply (tabled_name_any_case (str "Google Tensor G3") 2.91%Q (str "GOOGLE tensor g3")).
  - vm_compute. tauto.
  - vm_compute. reflexivity.
Defined.

Lemma is_substring_In (p s : pystr) (c : codepoint) :
  is_substring p s -> In c p -> In c s.
Proof.
  intros (l & r & ->) Hin. apply in_or_app. right.
  apply in_or_app. left. exact Hin.
Qed.

(** Lowering makes no space: a space of the lowered string was a space
    of the string. *)
Lemma lower_space (s : pystr) : In 32 (lower s) -> In 32 s.
Proof.
  unfold lower. induction s as [|c s IH]; [intros []|].
  cbn [flat_map]. intros H. apply in_app_or in H as [H|H].
  - left. unfold lower_char in H.
    destruct ((65 <=? c) && (c <=? 90)) eqn:Eu.
    + destruct H as [H|[]]. apply andb_true_iff in Eu as [E1 _].
      apply N.leb_le in E1. lia.
    + destruct (N.eqb_spec c 304); [destruct H as [H|[H|[]]]; discriminate|].
      destruct (N.eqb_spec c 8490); [destruct H as [H|[]]; discriminate|].
      destruct H as [H|[]]. exact H.
  - right. apply IH. exact H.
Qed.

Lemma processor_speeds_keys_have_space :
  forallb key_has_space prediction_pipeline.processor_speeds = true.
Proof. vm_compute. reflexivity. Qed.

(** A name without a space matches no key. *)
Lemma no_space_no_match (name key : pystr) (value : Q) :
  ~ In 32 name ->
  In (key, value) prediction_pipeline.processor_speeds ->
  ~ is_substring (lower key) (lower name).
Proof.
  intros Hns Hin Hsub. apply Hns, lower_space.
  apply (is_substring_In _ _ 32 Hsub).
  pose proof processor_speeds_keys_have_space as Hok.
  rewrite forallb_forall in Hok. specialize (Hok _ Hin).
  unfold key_has_space in Hok. cbn [fst] in Hok.
  apply existsb_exists in Hok as (c & Hc & Heq).
  apply N.eqb_eq in Heq. subst c. exact Hc.
Qed.

Lemma no_space_default (name : pystr) :
  ~ In 32 name -> prediction_pipeline.get_processor_speed name = 2.0%Q.
Proof.
  intros Hns.
  destruct (get_processor_speed_cases name) as [(key & Hin & Hsub)|[_ Hd]];
    [|exact Hd].
  destruct (no_space_no_match name key _ Hns Hin Hsub).
Qed.

(** Every key of the table holds a space, so a processor name without
    a space matches no entry and resolves to the default 2.0, whatever
    else it holds ("Exynos2400", "A17Pro", the text of a number). *)
Theorem name_without_space_default (name : pystr) :
  ~ In 32 name ->
  (forall key value, In (key, value) prediction_pipeline.processor_speeds ->
                     ~ is_substring (lower key) (lower name)) /\
  prediction_pipeline.get_processor_speed name = 2.0%Q /\
  training_pipeline.get_processor_speed name = 2.0%Q.
Proof.
  intros Hns. split.
  - intros key value. apply no_space_no_match. exact Hns.
  - split; exact (no_space_default name Hns).
Qed.

Lemma name_without_space_default_witness :
  prediction_pipeline.get_processor_speed (str "Exynos2400") = 2.0%Q /\
  training_pipeline.get_processor_speed (str "Exynos2400") = 2.0%Q.
Proof.
  apply (name_without_space_default (str "Exynos2400")).
  vm_compute. intuition discriminate.
Defined.

(** ** Digits read as numbers *)

Lemma Qred_inject_Z (z : Z) : Qred (inject_Z z) = inject_Z z.
Proof.
  unfold Qred, inject_Z.
  pose proof (Z.ggcd_gcd z 1) as Hg.
  pose proof (Z.ggcd_correct_divisors z 1) as Hd.
  destruct (Z.ggcd z 1) as [g [a b]]. cbn in Hg, Hd |- *.
  rewrite Z.gcd_1_r in Hg. subst g. destruct Hd as [Ha Hb].
  rewrite Z.mul_1_l in Ha, Hb. subst a b. reflexivity.
Qed.

(** The value of a numeral without fraction and exponent. *)
Lemma decimal_value_integer (neg : bool) (ds : pystr) :
  decimal_value neg ds [] 0 =
  inject_Z (if neg then (- digits_value ds)%Z else digits_value ds).
Proof.
  unfold decimal_value. rewrite app_nil_r.
  etransitivity; [|apply Qred_inject_Z]. apply Qred_complete.
  change (pow10 (0 - Z.of_nat (length (@nil N)))) with (1 # 1)%Q.
  destruct neg; unfold Qeq, Qmult, inject_Z; cbn [Qnum Qden]; lia.
Qed.

Lemma span_all (f : codepoint -> bool) (s : pystr) :
  Forall (fun c => f c = true) s -> span f s = (s, []).
Proof.
  induction 1 as [|c s Hc _ IH]; [reflexivity|].
  cbn. rewrite Hc, IH. reflexivity.
Qed.

Lemma span_none (f : codepoint -> bool) (c : codepoint) (s : pystr) :
  f c = false -> span f (c :: s) = ([], c :: s).
Proof. intros H. cbn. rewrite H. reflexivity. Qed.

(** A text without white space is its own [strip]. *)
Lemma strip_no_space (s : pystr) :
  Forall (fun c => is_space_ascii c = false) s -> strip s = s.
Proof.
  intros H.
  assert (Hl : forall t, Forall (fun c => is_space_ascii c = false) t -> lstrip t = t).
  { intros t Ht. unfold lstrip. destruct Ht as [|c t Hc _]; [reflexivity|].
    rewrite span_none by exact Hc. reflexivity. }
  unfold strip, rstrip. rewrite (Hl s H).
  rewrite Hl by (apply Forall_rev; exact H).
  apply rev_involutive.
Qed.

Lemma digit_cases (c : codepoint) :
  is_digit c = true ->
  c = 48 \/ c = 49 \/ c = 50 \/ c = 51 \/ c = 52 \/
  c = 53 \/ c = 54 \/ c = 55 \/ c = 56 \/ c = 57.
Proof.
  unfold is_digit. intros H. apply andb_true_iff in H as [H1 H2].
  apply N.leb_le in H1, H2. lia.
Qed.

Lemma take_sign_digit (c : codepoint) (t : pystr) :
  is_digit c = true -> take_sign (c :: t) = (false, c :: t).
Proof.
  intros H. destruct (digit_cases c H) as [->|[->|[->|[->|[->|[->|[->|[->|[->| ->]]]]]]]]];
    reflexivity.
Qed.

Lemma digit_not_space (c : codepoint) :
  is_digit c = true -> is_space_ascii c = false.
Proof.
  intros H. destruct (digit_cases c H) as [->|[->|[->|[->|[->|[->|[->|[->|[->| ->]]]]]]]]];
    reflexivity.
Qed.

(** A non-empty run of digits, with or without a minus sign before it,
    reads as the integer it spells. *)
Lemma parse_float_digits (ds : pystr) :
  ds <> [] -> Forall (fun c => is_digit c = true) ds ->
  parse_float ds = Some (Num (inject_Z (digits_value ds))) /\
  parse_float (45 :: ds) = Some (Num (inject_Z (- digits_value ds))).
Proof.
  intros Hne Hd.
  assert (Hns : Forall (fun c => is_space_ascii c = false) ds)
    by (eapply Forall_impl; [exact Hd|]; intros c; apply digit_not_space).
  assert (Hlen : (length ds + length (@nil N) =? 0)%nat = false)
    by (destruct ds; [contradiction|reflexivity]).
  unfold parse_float. split.
  - rewrite strip_no_space by exact Hns. unfold parse_numeral.
    destruct ds as [|c ds]; [contradiction|].
    rewrite take_sign_digit by (apply Forall_cons in Hd as [Hc _]; exact Hc).
    rewrite (span_all is_digit _ Hd). rewrite Hlen.
    rewrite decimal_value_integer. reflexivity.
  - rewrite strip_no_space by (constructor; [reflexivity|exact Hns]).
    unfold parse_numeral. cbn [take_sign].
    rewrite (span_all is_digit _ Hd). rewrite Hlen.
    rewrite decimal_value_integer. reflexivity.
Qed.

Lemma str_cons (a : ascii) (s : string) : str (String a s) = N_of_ascii a :: str s.
Proof. reflexivity. Qed.

Ltac uint_digit_step :=
  cbn [NilEmpty.string_of_uint Pos.of_uint_acc Pos.of_uint];
  rewrite ?str_cons; cbn [fold_left].

Ltac digit_value :=
  match goal with
  | |- context [Z.of_N (N_of_ascii ?a - 48)] =>
    let v := eval vm_compute in (Z.of_N (N_of_ascii a - 48)) in
    change (Z.of_N (N_of_ascii a - 48)) with v
  end.

(** The digits [str] writes for a decimal number spell its value. *)
Lemma uint_digits_acc (d : Decimal.uint) (acc : positive) :
  fold_left (fun a c => (10 * a + Z.of_N (c - 48))%Z)
            (str (NilEmpty.string_of_uint d)) (Z.pos acc) =
  Z.pos (Pos.of_uint_acc d acc).
Proof.
  revert acc. induction d as [|d IH|d IH|d IH|d IH|d IH|d IH|d IH|d IH|d IH|d IH];
    intros acc; uint_digit_step; [reflexivity|..];
    rewrite <- IH; f_equal; digit_value; lia.
Qed.

Lemma uint_digits (d : Decimal.uint) :
  digits_value (str (NilEmpty.string_of_uint d)) = Z.of_N (Pos.of_uint d).
Proof.
  unfold digits_value.
  induction d as [|d IH|d IH|d IH|d IH|d IH|d IH|d IH|d IH|d IH|d IH];
    uint_digit_step; try digit_value; [reflexivity|exact IH|..];
    cbn [Z.of_N]; rewrite <- uint_digits_acc; reflexivity.
Qed.

Lemma uint_all_digits (d : Decimal.uint) :
  Forall (fun c => is_digit c = true) (str (NilEmpty.string_of_uint d)).
Proof.
  induction d as [|d IH|d IH|d IH|d IH|d IH|d IH|d IH|d IH|d IH|d IH];
    cbn [NilEmpty.string_of_uint]; rewrite ?str_cons;
    [constructor|..]; (constructor; [reflexivity|exact IH]).
Qed.

(** The text of an integer: its digits, after a minus sign when it is
    negative; the digits spell its absolute value. *)
Lemma int_str_digits (z : Z) :
  exists ds,
    ds <> [] /\ Forall (fun c => is_digit c = true) ds /\
    digits_value ds = Z.abs z /\
    int_str z = (if (z <? 0)%Z then 45 :: ds else ds).
Proof.
  assert (Hp : forall p,
             let ds := str (NilZero.string_of_uint (Pos.to_uint p)) in
             ds <> [] /\ Forall (fun c => is_digit c = true) ds /\
             digits_value ds = Z.pos p).
  { intros p ds. subst ds.
    pose proof (DecimalPos.Unsigned.to_uint_nonnil p) as Hnn.
    pose proof (DecimalPos.Unsigned.of_to p) as Hof.
    assert (E : NilZero.string_of_uint (Pos.to_uint p) =
                NilEmpty.string_of_uint (Pos.to_uint p))
      by (destruct (Pos.to_uint p); [contradiction|reflexivity..]).
    rewrite E. split; [|split].
    - destruct (Pos.to_uint p); [contradiction|discriminate..].
    - apply uint_all_digits.
    - rewrite uint_digits, Hof. reflexivity. }
  destruct z as [|p|p].
  - exists [48]. repeat split; [discriminate|repeat constructor].
  - destruct (Hp p) as (H1 & H2 & H3). eexists. repeat split; eassumption.
  - destruct (Hp p) as (H1 & H2 & H3). eexists. repeat split; eassumption.
Qed.

(** An integer written by [str] and read back as a float is that
    integer. *)
Lemma parse_float_int_str (z : Z) :
  parse_float (int_str z) = Some (Num (inject_Z z)).
Proof.
  destruct (int_str_digits z) as (ds & Hne & Hd & Hv & ->).
  destruct (parse_float_digits ds Hne Hd) as [Hpos Hneg].
  destruct (Z.ltb_spec z 0).
  - rewrite Hneg, Hv. do 3 f_equal. lia.
  - rewrite Hpos, Hv. do 3 f_equal. lia.
Qed.

(** ** The cleaning functions on grouped digits *)









(** Replacing by nothing adds no code point. *)
Lemma replace_from_empty_In (old : pystr) (k : nat) (s : pystr) (c : codepoint) :
  In c (replace_from old [] k s) -> In c s.
Proof.
  revert k. induction s as [|d s IH]; intros k; [intros []|].
  cbn [replace_from]. destruct k as [|k].
  - destruct (startswith old (d :: s)); cbn [Datatypes.app].
    + intros H. right. exact (IH _ H).
    + intros [->|H]; [left; reflexivity|right; exact (IH _ H)].
  - intros H. right. exact (IH _ H).
Qed.

(** The text handed to the number parser holds no comma, and for a
    price no code point of the removed class either (no white space),
    whatever the input. *)
Theorem cleaned_text_has_no_separator (unit s : pystr) :
  Forall (fun c => c <> 44) (training_pipeline.strip_unit_and_commas unit s) /\
  Forall (fun c => training_pipeline.price_class c = false)
         (training_pipeline.strip_price s).
Proof.
  split.
  - unfold training_pipeline.strip_unit_and_commas.
    change (str ",") with [44]. rewrite replace_char_empty.
    apply Forall_forall. intros c Hc.
    apply list_elem_of_In, filter_In in Hc as [_ Hc].
    apply negb_true_iff, N.eqb_neq in Hc. congruence.
  - unfold training_pipeline.strip_price.
    apply Forall_forall. intros c Hc. apply list_elem_of_In in Hc.
    change (str "INR") with [73; 78; 82] in Hc. unfold replace in Hc.
    apply replace_from_empty_In in Hc.
    unfold remove_class in Hc. apply filter_In in Hc as [_ Hc].
    apply negb_true_iff in Hc. exact Hc.
Qed.

(** ** When the cleaning of a frame succeeds *)

Lemma getcol_inv (df : DataFrame) (name : pystr) (series : list cell) :
  getcol df name = Ok series ->
  has_column name df = true /\ series = map (fun r => cell_at r name) df.
Proof.
  unfold getcol. destruct (has_column name df); [|discriminate].
  intros [= <-]. split; reflexivity.
Qed.

Lemma str_accessor_inv (series series' : list cell) :
  str_accessor series = Ok series' ->
  numeric_dtype series = false /\ series' = series.
Proof.
  unfold str_accessor. destruct (numeric_dtype series); [discriminate|].
  intros [= <-]. split; reflexivity.
Qed.

Lemma clean_column_inv (name unit : pystr) (df df' : DataFrame) :
  clean_column name unit df = Ok df' ->
  has_column name df = true /\
  numeric_dtype (map (fun r => cell_at r name) df) = false /\
  df' = map (fun r => <[name := clean_numeric_cell unit (cell_at r name)]> r) df.
Proof.
  unfold clean_column. destruct (getcol df name) as [series|] eqn:Hg; [|discriminate].
  apply getcol_inv in Hg as [Hc ->]. cbn [rbind].
  unfold clean_numeric_column.
  destruct (str_accessor _) as [series'|] eqn:Hs; [|discriminate].
  apply str_accessor_inv in Hs as [Hd ->]. cbn [rbind].
  rewrite setcol_map. intros [= <-]. repeat split; assumption.
Qed.

Lemma apply_get_processor_speed_inv (series speeds : list cell) :
  apply_get_processor_speed series = Ok speeds ->
  Forall (fun c => exists s, c = Text s) series /\ speeds = map speed_cell series.
Proof.
  revert speeds. induction series as [|c series IH]; intros speeds.
  - intros [= <-]. split; [constructor|reflexivity].
  - cbn [apply_get_processor_speed]. destruct c as [s|x]; [|discriminate].
    destruct (apply_get_processor_speed series) as [sp|]; [|discriminate].
    cbn [rbind]. intros [= <-]. destruct (IH sp eq_refl) as [Hf ->].
    split; [constructor; [exists s; reflexivity|exact Hf]|reflexivity].
Qed.

(** What a successful cleaning tells about the frame. *)
Lemma clean_frame_inv (df cleaned : DataFrame) :
  clean_frame df = Ok cleaned ->
  (forall name, In name (str "Processor" :: text_columns) -> has_column name df = true) /\
  (forall name, In name text_columns ->
                numeric_dtype (map (fun r => cell_at r name) df) = false) /\
  Forall (fun r => exists s, cell_at r (str "Processor") = Text s) df.
Proof.
  intros H. unfold clean_frame in H.
  destruct (clean_column (str "Mobile Weight") _ df) as [d1|] eqn:E1; [|discriminate].
  cbn [rbind] in H. apply clean_column_inv in E1 as (C1 & D1 & ->).
  destruct (clean_column (str "RAM") _ _) as [d2|] eqn:E2; [|discriminate].
  cbn [rbind] in H. apply clean_column_inv in E2 as (C2 & D2 & ->).
  destruct (clean_column (str "Front Camera") _ _) as [d3|] eqn:E3; [|discriminate].
  cbn [rbind] in H. apply clean_column_inv in E3 as (C3 & D3 & ->).
  destruct (clean_column (str "Back Camera") _ _) as [d4|] eqn:E4; [|discriminate].
  cbn [rbind] in H. apply clean_column_inv in E4 as (C4 & D4 & ->).
  destruct (clean_column (str "Battery Capacity") _ _) as [d5|] eqn:E5; [|discriminate].
  cbn [rbind] in H. apply clean_column_inv in E5 as (C5 & D5 & ->).
  destruct (clean_column (str "Screen Size") _ _) as [d6|] eqn:E6; [|discriminate].
  cbn [rbind] in H. apply clean_column_inv in E6 as (C6 & D6 & ->).
  destruct (getcol _ (str "Processor")) as [proc|] eqn:E7; [|discriminate].
  cbn [rbind] in H. apply getcol_inv in E7 as (C7 & ->).
  destruct (apply_get_processor_speed _) as [speeds|] eqn:E8; [|discriminate].
  cbn [rbind] in H. apply apply_get_processor_speed_inv in E8 as (P8 & ->).
  rewrite setcol_map in H.
  destruct (getcol _ (str "Launched Price (India)")) as [price|] eqn:E9; [|discriminate].
  cbn [rbind] in H. apply getcol_inv in E9 as (C9 & ->).
  unfold clean_price in H.
  destruct (str_accessor _) as [series|] eqn:E10; [|discriminate].
  apply str_accessor_inv in E10 as (D10 & _).
  repeat match goal with
         | Hx : context [has_column _ (map _ _)] |- _ =>
           rewrite has_column_update in Hx by names_differ
         | Hx : context [map _ (map _ _)] |- _ =>
           rewrite column_update in Hx by names_differ
         end.
  split; [|split].
  - intros name Hin. cbn in Hin.
    destruct Hin as [<-|[<-|[<-|[<-|[<-|[<-|[<-|[<-|[]]]]]]]]]; assumption.
  - intros name Hin. cbn in Hin.
    destruct Hin as [<-|[<-|[<-|[<-|[<-|[<-|[<-|[]]]]]]]]; assumption.
  - apply Forall_forall. intros r Hr.
    rewrite Forall_forall in P8. apply P8.
    apply list_elem_of_In, in_map_iff. exists r.
    split; [reflexivity|apply list_elem_of_In; exact Hr].
Qed.

(** A successful cleaning cleaned every row by [clean_row]. *)
Lemma clean_frame_result (df cleaned : DataFrame) :
  clean_frame df = Ok cleaned -> cleaned = map clean_row df.
Proof.
  intros H. destruct (clean_frame_inv df cleaned H) as (Hc & Hd & Hp).
  rewrite (clean_frame_rows df Hc Hd Hp) in H. injection H as <-. reflexivity.
Qed.

(** The cleaning of a frame succeeds exactly when the frame has the
    processor column and the seven text columns, none of the text
    columns is a numeric column, and every processor cell is text; it
    then cleans every row by [clean_row], keeping the rows and their
    order. *)
Theorem clean_frame_succeeds_iff (df cleaned : DataFrame) :
  clean_frame df = Ok cleaned <->
  (forall name, In name (str "Processor" :: text_columns) -> has_column name df = true) /\
  (forall name, In name text_columns ->
                numeric_dtype (map (fun r => cell_at r name) df) = false) /\
  Forall (fun r => exists s, cell_at r (str "Processor") = Text s) df /\
  cleaned = map clean_row df.
Proof.
  split.
  - intros H. destruct (clean_frame_inv df cleaned H) as (Hc & Hd & Hp).
    repeat split; try assumption. apply clean_frame_result. exact H.
  - intros (Hc & Hd & Hp & ->). apply clean_frame_rows; assumption.
Qed.

(** A cleaned row holds a number in the weight column. *)
Lemma clean_row_weight (r : gmap pystr cell) :
  clean_row r !! str "Mobile Weight" =
  Some (clean_numeric_cell (str "g") (cell_at r (str "Mobile Weight"))).
Proof.
  unfold clean_row. rewrite !lookup_insert_ne by names_differ.
  apply lookup_insert_eq.
Qed.

Lemma clean_numeric_cell_Number (unit : pystr) (c : cell) :
  is_Number (clean_numeric_cell unit c) = true.
Proof. destruct c; reflexivity. Qed.

(** The cleaning cannot be run twice: on a frame with at least one row
    that it has cleaned, the weight column is a numeric column, and
    the [.str] accessor raises an [AttributeError]. *)
Theorem clean_frame_twice_raises (df cleaned : DataFrame) :
  df <> [] ->
  clean_frame df = Ok cleaned ->
  exists message,
    clean_frame cleaned = Raise (PyError (str "AttributeError") message).
Proof.
  intros Hne H. apply clean_frame_result in H as ->.
  unfold clean_frame, clean_column.
  assert (Hc : has_column (str "Mobile Weight") (map clean_row df) = true).
  { apply has_column_true. intros r Hr. apply in_map_iff in Hr as (r0 & <- & _).
    rewrite clean_row_weight. eexists. reflexivity. }
  rewrite (getcol_ok _ _ Hc). cbn [rbind].
  unfold clean_numeric_column, str_accessor.
  assert (Hd : numeric_dtype (map (fun r => cell_at r (str "Mobile Weight"))
                                  (map clean_row df)) = true).
  { unfold numeric_dtype. apply andb_true_iff. split.
    - apply negb_true_iff, bool_decide_eq_false_2.
      destruct df; [contradiction|discriminate].
    - apply forallb_forall. intros c Hcin.
      apply in_map_iff in Hcin as (r & <- & Hr).
      apply in_map_iff in Hr as (r0 & <- & _).
      unfold cell_at. rewrite clean_row_weight. cbn [default].
      apply clean_numeric_cell_Number. }
  rewrite Hd. eexists. reflexivity.
Qed.

Lemma clean_frame_twice_raises_witness :
  exists message,
    clean_frame sample_cleaned = Raise (PyError (str "AttributeError") message).
Proof.
  apply (clean_frame_twice_raises sample_dataset sample_cleaned).
  - discriminate.
  - apply returned_ok. vm_compute. reflexivity.
Defined.

Section TrainingEdges.

Variable fsqrt : Q -> Q.
Variable RandomForestRegressor_fit :
  nat -> Z -> matrix -> list pyfloat -> result pyobject.

(** When the frame has the columns but no cleaned row is complete (an
    empty dataset, or a null in every row), the training raises the
    scaler's [ValueError] for a matrix without samples, fits no model
    and leaves the files as they are. *)
Theorem train_without_complete_rows (df cleaned : DataFrame) (fs : gmap pystr file) :
  clean_frame df = Ok cleaned ->
  (forall name, In name (features ++ [target]) -> has_column name cleaned = true) ->
  Forall (fun r => complete (features ++ [target]) r = false) cleaned ->
  exists message,
    train_and_save_model fsqrt RandomForestRegressor_fit df fs =
    (fs, Raise (PyError (str "ValueError") message)).
Proof.
  intros Hclean Hcols Hnone.
  unfold train_and_save_model. rewrite Hclean. cbn [rbind].
  assert (Hdrop : dropna (features ++ [target]) cleaned = Ok []).
  { unfold dropna.
    destruct (List.find _ (features ++ [target])) as [name|] eqn:Hf.
    - apply find_some in Hf as [Hin Hneg].
      rewrite (Hcols name Hin) in Hneg. discriminate.
    - f_equal. clear Hf Hcols Hclean.
      induction Hnone as [|r rest Hr _ IH]; [reflexivity|].
      cbn [List.filter]. rewrite Hr. exact IH. }
  rewrite Hdrop. eexists. reflexivity.
Qed.

End TrainingEdges.

Lemma train_without_complete_rows_witness :
  exists message,
    train_and_save_model sample_sqrt sample_fit [] sample_files =
    (sample_files, Raise (PyError (str "ValueError") message)).
Proof.
  apply (train_without_complete_rows sample_sqrt sample_fit [] [] sample_files).
  - reflexivity.
  - intros name _. reflexivity.
  - constructor.
Defined.

(** ** The loaders, the prediction and the handlers *)

(** A loader returns the object pickled in the file when the file is
    there and readable, and otherwise raises a [CustomException]: for a
    missing file its message names the path, for an unreadable one it
    carries the text of the cause.  No other exception leaves it. *)
Theorem loaders_raise_custom (fs : gmap pystr file) (path : pystr) :
  (forall o, load_model fs path = Ok o <-> fs !! path = Some (Pickle o)) /\
  (forall o, load_scaler fs path = Ok o <-> fs !! path = Some (Pickle o)) /\
  (fs !! path = None ->
   load_model fs path = Raise (CustomException (str "Model file not found at " ++ path)) /\
   load_scaler fs path = Raise (CustomException (str "Scaler file not found at " ++ path))) /\
  (forall e, load_model fs path = Raise e -> exists m, e = CustomException m) /\
  (forall e, load_scaler fs path = Raise e -> exists m, e = CustomException m).
Proof.
  unfold load_model, load_scaler, pickle_load.
  destruct (fs !! path) as [[o'|e']|] eqn:Hf.
  - repeat split; try (intros [= ->]; reflexivity); try discriminate.
  - repeat split; try discriminate;
      destruct (is_FileNotFoundError e'); try discriminate;
      intros e [= <-]; eexists; reflexivity.
  - cbn. repeat split; try discriminate; intros e [= <-]; eexists; reflexivity.
Qed.

(** Every outcome of a prediction: it either raises a [CustomException]
    whose message starts with "Error in making prediction: ", or it
    returns what the model predicts on what the scaler returned, after
    exactly three calls in this order: the array, the transform, the
    prediction.  In either case the model is asked to predict only on
    a matrix that the scaler returned. *)
Theorem make_prediction_outcomes (self : ModelPredictor) (input_data : list pyval) :
  exists t r,
    make_prediction self input_data = (t, r) /\
    (forall X, In (CallPredict X) t ->
               exists sc arr, scaler self = Some sc /\
                              In (CallTransform arr) t /\
                              obj_transform sc arr = Ok X) /\
    ((exists m, r = Raise (CustomException (str "Error in making prediction: " ++ m)))
     \/
     (exists sc md arr X y,
         scaler self = Some sc /\ model self = Some md /\
         t = [CallArray input_data; CallTransform [arr]; CallPredict X] /\
         obj_transform sc [arr] = Ok X /\ obj_predict md X = Ok y /\ r = Ok y)).
Proof.
  unfold make_prediction.
  destruct (model self) as [md|]; [destruct (scaler self) as [sc|]|].
  2,3: eexists _, _; (split; [reflexivity|]); (split; [intros X []|]);
       left; eexists; reflexivity.
  unfold try_except, bind, call, ret, raise.
  destruct (getitem (np_array input_data) 4) as [x|e]; cbn.
  2:{ eexists _, _. split; [reflexivity|].
      split; [intros X [H|[]]; discriminate|]. left. eexists. reflexivity. }
  destruct (speed_of_scalar x) as [q|e]; cbn.
  2:{ eexists _, _. split; [reflexivity|].
      split; [intros X [H|[]]; discriminate|]. left. eexists. reflexivity. }
  destruct (obj_transform sc _) as [X|e] eqn:Ht; cbn.
  2:{ eexists _, _. split; [reflexivity|].
      split; [intros X [H|[H|[]]]; discriminate|]. left. eexists. reflexivity. }
  assert (Hcalls : forall X' t',
             In (CallPredict X')
                (CallArray input_data ::
                 CallTransform [setitem_float (np_array input_data) 4 q] ::
                 CallPredict X :: t') ->
             t' = [] ->
             exists sc0 arr, Some sc = Some sc0 /\
               In (CallTransform arr)
                  (CallArray input_data ::
                   CallTransform [setitem_float (np_array input_data) 4 q] ::
                   CallPredict X :: t') /\
               obj_transform sc0 arr = Ok X').
  { intros X' t' Hin ->. destruct Hin as [H|[H|[H|[]]]]; try discriminate.
    injection H as <-. exists sc, [setitem_float (np_array input_data) 4 q].
    split; [reflexivity|]. split; [right; left; reflexivity|exact Ht]. }
  destruct (obj_predict md X) as [y|e] eqn:Hp; cbn.
  - eexists _, _. split; [reflexivity|].
    split; [intros X' Hin; exact (Hcalls X' [] Hin eq_refl)|].
    right. exists sc, md, (setitem_float (np_array input_data) 4 q), X, y.
    repeat split; assumption.
  - eexists _, _. split; [reflexivity|].
    split; [intros X' Hin; exact (Hcalls X' [] Hin eq_refl)|].
    left. eexists. reflexivity.
Qed.

Lemma forallb_false_exists {A : Type} (f : A -> bool) (l : list A) :
  forallb f l = false -> exists x, In x l /\ f x = false.
Proof.
  induction l as [|x l IH]; [discriminate|].
  cbn. destruct (f x) eqn:Hx.
  - intros H. destruct (IH H) as (y & Hy & Hfy). exists y. split; [right|]; assumption.
  - intros _. exists x. split; [left; reflexivity|exact Hx].
Qed.

(** The handler of [POST /predict] never raises; it answers 503 (only
    with the flag unset), 400 (some required field missing), 500 (the
    prediction raised, with the text of the exception) or 200, and a
    200 carries exactly what [make_prediction] returned on the eight
    required fields taken from the body in their fixed order. *)
Theorem predict_responses (a : app) (data : gmap pystr pyval) :
  exists t r,
    predict a data = (t, Ok r) /\
    ((MODEL_LOADED a = false /\ status r = 503%nat /\ t = [])
     \/
     (MODEL_LOADED a = true /\
      (exists feature, In feature required_features /\ data !! feature = None) /\
      r = missing_response /\ t = [])
     \/
     (MODEL_LOADED a = true /\
      exists input_data,
        map Some input_data = map (fun feature => data !! feature) required_features /\
        ((exists message, status r = 500%nat /\ json r = ErrorBody message)
         \/
         (exists p y,
             predictor a = Some p /\
             make_prediction p input_data = (t, Ok y) /\
             r = {| status := 200; json := PredictionBody y |})))).
Proof.
  destruct (MODEL_LOADED a) eqn:Hl.
  2:{ unfold predict. rewrite Hl. cbn. eexists _, _. split; [reflexivity|].
      left. repeat split. }
  destruct (forallb (fun feature => bool_decide (is_Some (data !! feature)))
                    required_features) eqn:Hb.
  - destruct (predict_complete a data Hl (required_present data Hb))
      as (input_data & Hin & ->).
    destruct (predictor a) as [p|].
    + destruct (make_prediction p input_data) as [t [y|e]] eqn:Hm; cbn.
      * eexists _, _. split; [reflexivity|]. right. right.
        split; [reflexivity|]. exists input_data. split; [exact Hin|].
        right. exists p, y. rewrite app_nil_r. repeat split. exact Hm.
      * eexists _, _. split; [reflexivity|]. right. right.
        split; [reflexivity|]. exists input_data. split; [exact Hin|].
        left. eexists. split; reflexivity.
    + cbn. eexists _, _. split; [reflexivity|]. right. right.
      split; [reflexivity|]. exists input_data. split; [exact Hin|].
      left. eexists. split; reflexivity.
  - rewrite (predict_incomplete a data Hl Hb).
    eexists _, _. split; [reflexivity|]. right. left.
    split; [reflexivity|]. split; [|split; reflexivity].
    destruct (forallb_false_exists _ _ Hb) as (f & Hf & Hnone).
    exists f. split; [exact Hf|].
    apply bool_decide_eq_false in Hnone.
    destruct (data !! f) eqn:E; [|reflexivity].
    exfalso. apply Hnone. eexists. reflexivity.
Qed.

(** The answer depends on the eight required fields only: fields that
    a body holds besides them, and the order of its fields, change
    nothing. *)
Theorem predict_only_required_fields (a : app) (data data' : gmap pystr pyval) :
  (forall feature, In feature required_features -> data !! feature = data' !! feature) ->
  predict a data = predict a data'.
Proof.
  intros H. unfold predict, field.
  assert (Hb : forallb (fun feature => bool_decide (is_Some (data !! feature)))
                       required_features =
               forallb (fun feature => bool_decide (is_Some (data' !! feature)))
                       required_features).
  { revert H. generalize required_features as l.
    induction l as [|f l IH]; intros H; [reflexivity|].
    cbn [forallb]. rewrite (H f) by (left; reflexivity).
    rewrite IH by (intros g Hg; apply H; right; exact Hg). reflexivity. }
  rewrite Hb.
  rewrite !H by (cbn; tauto). reflexivity.
Qed.

Lemma predict_only_required_fields_witness :
  predict (startup sample_files) sample_data =
  predict (startup sample_files)
          (<[str "Company Name" := PStr (str "Apple")]> sample_data).
Proof.
  apply (predict_only_required_fields (startup sample_files)).
  intros feature Hin.
  rewrite lookup_insert_ne; [reflexivity|].
  intros <-. vm_compute in Hin. intuition discriminate.
Defined.

(** [GET /] reports "Model loaded" whatever the files are: with a file
    missing it still does, while a complete [POST /predict] is answered
    with status 500 and the not-loaded message. *)
Theorem home_reports_loaded (fs : gmap pystr file) (data : gmap pystr pyval) :
  home (startup fs) = {| home_message := str "Mobile Price Prediction API";
                         home_status := str "Model loaded" |} /\
  (((exists e, pickle_load fs (str "artifacts/best_model.pkl") = Raise e) \/
    (exists e, pickle_load fs (str "artifacts/scaler.pkl") = Raise e)) ->
   (forall feature, In feature required_features -> is_Some (data !! feature)) ->
   predict (startup fs) data = ([], Ok not_loaded_response)).
Proof.
  destruct (startup_cases fs) as (p & Hs & Hi). split.
  - rewrite Hs. reflexivity.
  - intros Hfail Hall.
    assert (Hl : MODEL_LOADED (startup fs) = true) by (rewrite Hs; reflexivity).
    rewrite (init_not_loaded _ _ _ Hfail) in Hi. injection Hi as <-.
    destruct (predict_complete _ data Hl Hall) as (input & _ & ->).
    rewrite Hs. cbn [predictor].
    rewrite make_prediction_None by (left; reflexivity). reflexivity.
Qed.

(** ** The features of a request and of the row that spells it *)

Lemma In_take {A : Type} (n : nat) (l : list A) (x : A) :
  In x (take n l) -> In x l.
Proof.
  revert n. induction l as [|y l IH]; intros [|n]; cbn; try tauto.
  intros [->|H]; [left; reflexivity|right; exact (IH n H)].
Qed.

(** The trace of a prediction on a list with a string among its
    fields, up to the call of the scaler. *)
Lemma make_prediction_string_array (self : ModelPredictor) (m s : pyobject)
      (input_data : list pyval) (processor : pyval) :
  model self = Some m ->
  scaler self = Some s ->
  existsb is_PStr input_data = true ->
  input_data !! 4%nat = Some processor ->
  let w := max_width input_data in
  let speed := prediction_pipeline.get_processor_speed (take w (py_str processor)) in
  exists t r,
    make_prediction self input_data =
    (CallArray input_data ::
     CallTransform
       [StrArray w (<[4%nat := take w (float_str (Num speed))]>
                      (map (fun v => take w (py_str v)) input_data))] :: t, r).
Proof.
  intros Hm Hs Hex H4 w speed.
  destruct (np_array_with_string input_data 4 processor Hex H4) as (Harr & Hget).
  unfold make_prediction. rewrite Hm, Hs.
  unfold try_except, bind, call, ret, raise.
  rewrite Hget. cbn [speed_of_scalar Datatypes.app].
  rewrite Harr. cbn [setitem_float].
  subst speed w.
  destruct (obj_transform s _) as [X|e]; cbn [Datatypes.app];
    [|eexists _, _; reflexivity].
  destruct (obj_predict m X) as [y|e]; cbn [Datatypes.app];
    eexists _, _; reflexivity.
Qed.

(** A field that reads as a float is stored whole in the array. *)
Lemma reads_as_stored (vals : list pyval) (v : pyval) (x : pyfloat) :
  In v vals -> reads_as v x ->
  parse_float (take (max_width vals) (py_str v)) = Some x.
Proof.
  intros Hin [Hlen Hp]. pose proof (max_width_ge vals v Hin).
  rewrite take_ge by lia. exact Hp.
Qed.

(** Every integer whose text fits the width reads as itself. *)
Lemma reads_as_int (z : Z) :
  (length (int_str z) <= 21)%nat -> reads_as (PInt z) (Num (inject_Z z)).
Proof.
  intros H. split; [exact H|]. apply parse_float_int_str.
Qed.

Lemma plain_text_no_comma (t : pystr) :
  plain_text t -> List.filter (fun c => negb (c =? 44)) t = t.
Proof.
  induction 1 as [|c t Hc _ IH]; [reflexivity|].
  cbn [List.filter]. rewrite IH.
  destruct (N.eqb_spec c 44) as [->|_]; [|reflexivity].
  destruct Hc as [Hc|[Hc|Hc]]; discriminate.
Qed.

(** A plain number text followed by a unit that starts with a letter
    cleans to the number the text reads as. *)
Lemma clean_numeric_plain (unit : pystr) (u : codepoint) (us t : pystr)
      (x : pyfloat) (space : bool) :
  unit = u :: us ->
  is_digit u = false -> u <> 46 -> u <> 45 -> u <> 32 ->
  plain_text t -> parse_float t = Some x ->
  training_pipeline.clean_numeric unit (with_unit space t unit) = x.
Proof.
  intros -> Hd H46 H45 H32 Ht Hp.
  assert (Hfree : Forall (fun c => c <> u /\ c <> 32) t).
  { eapply Forall_impl; [exact Ht|]. intros c [Hc|[->| ->]].
    - split; [intros ->; congruence|intros ->; discriminate].
    - split; [congruence|discriminate].
    - split; [congruence|discriminate]. }
  destruct (strip_unit_and_commas_suffix u us t Hfree) as [H1 H2].
  unfold training_pipeline.clean_numeric, to_numeric_coerce, with_unit.
  destruct space.
  - rewrite H1, (plain_text_no_comma t Ht), Hp. reflexivity.
  - cbn [Datatypes.app]. rewrite H2, (plain_text_no_comma t Ht), Hp. reflexivity.
Qed.

Ltac row_lookup :=
  unfold clean_row, frame_row, cell_at;
  repeat first [ rewrite lookup_insert_eq
               | rewrite lookup_insert_ne by names_differ ];
  cbn [default clean_numeric_cell speed_cell clean_price_cell id].

(** The feature cells of the cleaned row of a dataset row. *)
Lemma clean_row_features (weight ram front back processor battery screen : pystr)
      (year : cell) (price : pystr) :
  select features
         [clean_row (frame_row weight ram front back processor battery screen year price)] =
  [[ Number (training_pipeline.clean_numeric (str "g") weight);
     Number (training_pipeline.clean_numeric (str "GB") ram);
     Number (training_pipeline.clean_numeric (str "MP") front);
     Number (training_pipeline.clean_numeric (str "MP") back);
     Number (Num (training_pipeline.get_processor_speed processor));
     Number (training_pipeline.clean_numeric (str "mAh") battery);
     Number (training_pipeline.clean_numeric (str "inches") screen);
     year ]].
Proof.
  unfold select, features. cbn [map].
  repeat (f_equal; [row_lookup; reflexivity|]).
  reflexivity.
Qed.

(** The central invariant on a request and the dataset row that spells
    it.  Take seven numeric fields that fit the array and read as the
    floats [x0 .. x7], and a processor name.  At training, the row
    whose text cells are the fields' texts followed by their units
    (after a space or not) and whose year is [x7] is cleaned to the
    feature row [x0, x1, x2, x3, speed, x5, x6, x7].  At inference,
    the request holding the same fields reaches the scaler as the same
    row, its speed equal to the resolved speed. *)
Theorem request_and_row_features_agree (self : ModelPredictor) (m s : pyobject)
        (v0 v1 v2 v3 v5 v6 v7 : pyval) (name price : pystr)
        (x0 x1 x2 x3 x5 x6 x7 : pyfloat) (space : bool) :
  model self = Some m ->
  scaler self = Some s ->
  reads_as v0 x0 /\ reads_as v1 x1 /\ reads_as v2 x2 /\ reads_as v3 x3 /\
  reads_as v5 x5 /\ reads_as v6 x6 /\ reads_as v7 x7 ->
  plain_text (py_str v0) /\ plain_text (py_str v1) /\ plain_text (py_str v2) /\
  plain_text (py_str v3) /\ plain_text (py_str v5) /\ plain_text (py_str v6) ->
  let row :=
    frame_row (with_unit space (py_str v0) (str "g"))
              (with_unit space (py_str v1) (str "GB"))
              (with_unit space (py_str v2) (str "MP"))
              (with_unit space (py_str v3) (str "MP"))
              name
              (with_unit space (py_str v5) (str "mAh"))
              (with_unit space (py_str v6) (str "inches"))
              (Number x7) price in
  let input_data := [v0; v1; v2; v3; PStr name; v5; v6; v7] in
  floats_of_rows (select features [clean_row row]) =
    Ok [[x0; x1; x2; x3; Num (training_pipeline.get_processor_speed name); x5; x6; x7]] /\
  exists q arr t r,
    (q == prediction_pipeline.get_processor_speed name)%Q /\
    make_prediction self input_data =
      (CallArray input_data :: CallTransform [arr] :: t, r) /\
    as_float_row arr = Ok [x0; x1; x2; x3; Num q; x5; x6; x7].
Proof.
  intros Hm Hs (R0 & R1 & R2 & R3 & R5 & R6 & R7) (P0 & P1 & P2 & P3 & P5 & P6)
         row input_data.
  split.
  - unfold row. rewrite clean_row_features.
    rewrite (clean_numeric_plain (str "g") 103 [] _ x0 space eq_refl eq_refl)
      by (try discriminate; first [exact P0 | apply R0]).
    rewrite (clean_numeric_plain (str "GB") 71 [66] _ x1 space eq_refl eq_refl)
      by (try discriminate; first [exact P1 | apply R1]).
    rewrite (clean_numeric_plain (str "MP") 77 [80] _ x2 space eq_refl eq_refl)
      by (try discriminate; first [exact P2 | apply R2]).
    rewrite (clean_numeric_plain (str "MP") 77 [80] _ x3 space eq_refl eq_refl)
      by (try discriminate; first [exact P3 | apply R3]).
    rewrite (clean_numeric_plain (str "mAh") 109 [65; 104] _ x5 space eq_refl eq_refl)
      by (try discriminate; first [exact P5 | apply R5]).
    rewrite (clean_numeric_plain (str "inches") 105 (str "nches") _ x6 space eq_refl eq_refl)
      by (try discriminate; first [exact P6 | apply R6]).
    reflexivity.
  - assert (Hex : existsb is_PStr input_data = true).
    { apply existsb_exists. exists (PStr name). split; [|reflexivity].
      unfold input_data. cbn. tauto. }
    destruct (make_prediction_string_array self m s input_data (PStr name)
                Hm Hs Hex eq_refl) as (t & r & Hmp).
    destruct (take_string_element input_data 4 name eq_refl) as [_ Hname].
    rewrite Hname in Hmp.
    assert (Hw : (length name <= max_width input_data)%nat).
    { apply (max_width_ge input_data (PStr name)). unfold input_data. cbn. tauto. }
    destruct (speed_text_reads_back name (max_width input_data) Hw
                (max_width_positive input_data)) as (q & Hq & Heq).
    exists q. eexists. exists t, r. split; [exact Heq|]. split; [exact Hmp|].
    cbn [as_float_row].
    assert (Hin : forall v, In v [v0; v1; v2; v3; v5; v6; v7] -> In v input_data)
      by (unfold input_data; cbn; tauto).
    pose proof (reads_as_stored input_data v0 x0 (Hin v0 ltac:(cbn; tauto)) R0) as S0.
    pose proof (reads_as_stored input_data v1 x1 (Hin v1 ltac:(cbn; tauto)) R1) as S1.
    pose proof (reads_as_stored input_data v2 x2 (Hin v2 ltac:(cbn; tauto)) R2) as S2.
    pose proof (reads_as_stored input_data v3 x3 (Hin v3 ltac:(cbn; tauto)) R3) as S3.
    pose proof (reads_as_stored input_data v5 x5 (Hin v5 ltac:(cbn; tauto)) R5) as S5.
    pose proof (reads_as_stored input_data v6 x6 (Hin v6 ltac:(cbn; tauto)) R6) as S6.
    pose proof (reads_as_stored input_data v7 x7 (Hin v7 ltac:(cbn; tauto)) R7) as S7.
    revert S0 S1 S2 S3 S5 S6 S7 Hq.
    generalize (max_width input_data). intros w S0 S1 S2 S3 S5 S6 S7 Hq.
    unfold input_data. cbn [map]. cbn [insert list_insert].
    cbn [floats_of_strs].
    rewrite S0, S1, S2, S3, Hq, S5, S6, S7. reflexivity.
Qed.

Ltac plain_text_tac :=
  vm_compute;
  repeat (apply List.Forall_cons;
          [first [left; reflexivity | right; left; reflexivity
                 | right; right; reflexivity]|]);
  apply List.Forall_nil.

Lemma request_and_row_features_agree_witness :
  let v0 := PInt 180 in
  let v1 := PInt 8 in
  let v2 := PInt 16 in
  let v3 := PInt 48 in
  let v5 := PInt 4500 in
  let v6 := PFloat (Num 6.5%Q) in
  let v7 := PInt 2023 in
  let name := str "A17 Bionic" in
  let row :=
    frame_row (with_unit true (py_str v0) (str "g"))
              (with_unit true (py_str v1) (str "GB"))
              (with_unit true (py_str v2) (str "MP"))
              (with_unit true (py_str v3) (str "MP"))
              name
              (with_unit true (py_str v5) (str "mAh"))
              (with_unit true (py_str v6) (str "inches"))
              (Number (Num 2023%Q)) (str "INR 79,999") in
  let input_data := [v0; v1; v2; v3; PStr name; v5; v6; v7] in
  floats_of_rows (select features [clean_row row]) =
    Ok [[Num 180%Q; Num 8%Q; Num 16%Q; Num 48%Q;
         Num (training_pipeline.get_processor_speed name);
         Num 4500%Q; Num (13 # 2)%Q; Num 2023%Q]] /\
  exists q arr t r,
    (q == prediction_pipeline.get_processor_speed name)%Q /\
    make_prediction sample_predictor input_data =
      (CallArray input_data :: CallTransform [arr] :: t, r) /\
    as_float_row arr =
      Ok [Num 180%Q; Num 8%Q; Num 16%Q; Num 48%Q; Num q;
          Num 4500%Q; Num (13 # 2)%Q; Num 2023%Q].
Proof.
  intros v0 v1 v2 v3 v5 v6 v7 name.
  apply (request_and_row_features_agree sample_predictor sample_model sample_scaler
           v0 v1 v2 v3 v5 v6 v7 name (str "INR 79,999")
           (Num 180%Q) (Num 8%Q) (Num 16%Q) (Num 48%Q) (Num 4500%Q)
           (Num (13 # 2)%Q) (Num 2023%Q) true eq_refl eq_refl).
  - repeat split; vm_compute; first [reflexivity | lia | discriminate].
  - repeat split; plain_text_tac.
Defined.

(** ** A processor that is not text, and a request that is too short *)

Lemma int_str_no_space (z : Z) : ~ In 32 (int_str z).
Proof.
  destruct (int_str_digits z) as (ds & _ & Hd & _ & ->).
  assert (Hds : ~ In 32 ds).
  { intros Hin. rewrite List.Forall_forall in Hd.
    specialize (Hd 32 Hin). discriminate. }
  destruct (z <? 0)%Z; [|exact Hds].
  intros [H|H]; [discriminate|exact (Hds H)].
Qed.

Lemma frac_digits_no_space (fuel : nat) (r d : Z) : ~ In 32 (frac_digits fuel r d).
Proof.
  revert r. induction fuel as [|k IH]; intros r; cbn [frac_digits]; [intros []|].
  destruct (r =? 0)%Z; [intros []|].
  intros [H|H]; [lia|exact (IH _ H)].
Qed.

Lemma float_str_no_space (x : pyfloat) : ~ In 32 (float_str x).
Proof.
  destruct x as [|[|]|q]; cbn [float_str].
  1-3: vm_compute; intuition discriminate.
  rewrite !in_app_iff. intros [H|[H|[H|H]]].
  - destruct (Qnum q <? 0)%Z; [destruct H as [H|[]]; discriminate|destruct H].
  - exact (int_str_no_space _ H).
  - destruct H as [H|[]]; discriminate.
  - pose proof (frac_digits_no_space 17 (Z.abs (Qnum q) mod Z.pos (Qden q))
                                     (Z.pos (Qden q))) as Hf.
    destruct (frac_digits 17 _ _); [destruct H as [H|[]]; discriminate|].
    exact (Hf H).
Qed.

(** A processor sent as a number is never looked up in the table.
    When no field of the request is a string, the array is numeric,
    its element has no [lower], and the prediction raises before the
    scaler is called.  When another field is a string, the number is
    stored as its text, which holds no space, so the speed is the
    default and the array holds "2.0" in its place. *)
Theorem numeric_processor_not_resolved (self : ModelPredictor) (m s : pyobject)
        (input_data : list pyval) (processor : pyval) :
  model self = Some m ->
  scaler self = Some s ->
  input_data !! 4%nat = Some processor ->
  is_PStr processor = false ->
  (existsb is_PStr input_data = false ->
   make_prediction self input_data =
     ([CallArray input_data],
      Raise (CustomException
               (str "Error in making prediction: '" ++
                (if existsb is_PFloat input_data
                 then str "numpy.float64" else str "numpy.int64") ++
                str "' object has no attribute 'lower'")))) /\
  (existsb is_PStr input_data = true ->
   exists t r,
     make_prediction self input_data =
       (CallArray input_data ::
        CallTransform
          [StrArray (max_width input_data)
             (<[4%nat := str "2.0"]>
                (map (fun v => take (max_width input_data) (py_str v)) input_data))]
        :: t, r)).
Proof.
  intros Hm Hs H4 Hp. split.
  - intros Hex. unfold make_prediction. rewrite Hm, Hs.
    unfold try_except, bind, call, ret, raise, np_array. rewrite Hex.
    assert (Hne : bool_decide (input_data = []) = false).
    { apply bool_decide_eq_false. intros ->. discriminate. }
    rewrite Hne, orb_false_r.
    destruct (existsb is_PFloat input_data); unfold getitem;
      change (map ?f input_data) with (f <$> input_data);
      rewrite list_lookup_fmap, H4; reflexivity.
  - intros Hex.
    destruct (make_prediction_string_array self m s input_data processor
                Hm Hs Hex H4) as (t & r & Hmp).
    assert (Hin : In processor input_data)
      by (apply list_elem_of_In; eapply list_elem_of_lookup_2; exact H4).
    assert (Hw : (21 <= max_width input_data)%nat).
    { apply max_width_number. apply Exists_exists. exists processor.
      split; [apply list_elem_of_In; exact Hin|exact Hp]. }
    assert (Hns : ~ In 32 (take (max_width input_data) (py_str processor))).
    { intros H. apply In_take in H.
      destruct processor as [z|x|name]; [| |discriminate].
      - exact (int_str_no_space z H).
      - exact (float_str_no_space x H). }
    rewrite (no_space_default _ Hns) in Hmp.
    rewrite take_ge in Hmp
      by (change (length (float_str (Num 2.0%Q))) with 3%nat; lia).
    exists t, r. exact Hmp.
Qed.

Lemma numeric_processor_not_resolved_witness :
  let input_data :=
    [PInt 180; PInt 8; PInt 16; PInt 48; PInt 3; PInt 4500; PStr (str "6.5"); PInt 2023] in
  exists t r,
    make_prediction sample_predictor input_data =
      (CallArray input_data ::
       CallTransform
         [StrArray (max_width input_data)
            (<[4%nat := str "2.0"]>
               (map (fun v => take (max_width input_data) (py_str v)) input_data))]
       :: t, r).
Proof.
  intros input_data.
  apply (numeric_processor_not_resolved sample_predictor sample_model sample_scaler
           input_data (PInt 3) eq_refl eq_refl eq_refl eq_refl).
  reflexivity.
Defined.

(** A list of fewer than five values has no processor: the prediction
    raises the wrapped [IndexError] of the array, after building the
    array and before any call to the scaler or the model. *)
Theorem short_input_raises (self : ModelPredictor) (m s : pyobject)
        (input_data : list pyval) :
  model self = Some m ->
  scaler self = Some s ->
  (length input_data <= 4)%nat ->
  make_prediction self input_data =
    ([CallArray input_data],
     Raise (CustomException
              (str "Error in making prediction: index 4 is out of bounds for axis 0 with size "
               ++ int_str (Z.of_nat (length input_data))))).
Proof.
  intros Hm Hs Hlen. unfold make_prediction. rewrite Hm, Hs.
  unfold try_except, bind, call, ret, raise.
  assert (Hsize : array_size (np_array input_data) = length input_data).
  { unfold np_array.
    destruct (existsb is_PStr input_data);
      [|destruct (existsb is_PFloat input_data || bool_decide (input_data = []))];
      cbn [array_size]; apply length_map. }
  assert (Hget : getitem (np_array input_data) 4 =
                 Raise (IndexError 4 (length input_data))).
  { unfold getitem. rewrite Hsize.
    assert (Hnone : forall (A : Type) (l : list A), length l = length input_data ->
                                                    l !! 4%nat = None)
      by (intros A l Hl; apply lookup_ge_None; lia).
    unfold np_array.
    destruct (existsb is_PStr input_data);
      [|destruct (existsb is_PFloat input_data || bool_decide (input_data = []))];
      cbn zeta; rewrite Hnone by apply length_map; reflexivity. }
  rewrite Hget. reflexivity.
Qed.

Lemma short_input_raises_witness :
  make_prediction sample_predictor [PInt 180; PInt 8] =
    ([CallArray [PInt 180; PInt 8]],
     Raise (CustomException
              (str "Error in making prediction: index 4 is out of bounds for axis 0 with size "
               ++ int_str (Z.of_nat (length [PInt 180; PInt 8]))))).
Proof.
  apply (short_input_raises sample_predictor sample_model sample_scaler
           [PInt 180; PInt 8] eq_refl eq_refl).
  cbn. lia.
Defined.

(** ** Rows kept by the training, and the text of an exception *)

(** The processor never decides whether a row is used for training.
    After a cleaning that succeeded, every row has a speed that is a
    number (the default for a processor the table does not know), and
    the row is kept exactly when its six unit columns, its price and
    its year are not null after the cleaning. *)
Theorem processor_never_drops_row (df cleaned kept : DataFrame)
        (r : gmap pystr cell) :
  clean_frame df = Ok cleaned ->
  dropna (features ++ [target]) cleaned = Ok kept ->
  In r df ->
  exists s,
    cell_at r (str "Processor") = Text s /\
    cell_at (clean_row r) (str "Processor_Speed") =
      Number (Num (training_pipeline.get_processor_speed s)) /\
    (In (clean_row r) kept <->
     forall name, In name (text_columns ++ [str "Launched Year"]) ->
                  cell_isnull (cell_at (clean_row r) name) = false).
Proof.
  intros Hclean Hdrop Hin.
  destruct (clean_frame_inv df cleaned Hclean) as (_ & _ & Hp).
  rewrite List.Forall_forall in Hp. destruct (Hp r Hin) as (s & Hs).
  assert (Hspeed : cell_at (clean_row r) (str "Processor_Speed") =
                   Number (Num (training_pipeline.get_processor_speed s))).
  { unfold clean_row, cell_at.
    rewrite lookup_insert_ne by names_differ. rewrite lookup_insert_eq.
    cbn [default id].
    rewrite !lookup_insert_ne by names_differ.
    unfold cell_at in Hs. rewrite Hs. reflexivity. }
  exists s. split; [exact Hs|]. split; [exact Hspeed|].
  destruct (dropna_spec _ _ _ Hdrop) as [_ Hmem].
  rewrite (clean_frame_result df cleaned Hclean) in Hmem.
  rewrite Hmem. split.
  - intros [_ Hall] name Hn. apply Hall.
    unfold text_columns in Hn. unfold features, target.
    cbn [Datatypes.app In] in Hn |- *. tauto.
  - intros Hall. split; [apply in_map; exact Hin|].
    intros name Hn. unfold features, target in Hn.
    cbn [Datatypes.app In] in Hn.
    destruct Hn as [<-|[<-|[<-|[<-|[<-|[<-|[<-|[<-|[<-|[]]]]]]]]]];
      first [ rewrite Hspeed; reflexivity
            | apply Hall; unfold text_columns; cbn [Datatypes.app In]; tauto ].
Qed.

Lemma processor_never_drops_row_witness :
  exists s,
    cell_at (nth 3 sample_dataset ∅) (str "Processor") = Text s /\
    cell_at (clean_row (nth 3 sample_dataset ∅)) (str "Processor_Speed") =
      Number (Num (training_pipeline.get_processor_speed s)) /\
    (In (clean_row (nth 3 sample_dataset ∅)) sample_kept <->
     forall name, In name (text_columns ++ [str "Launched Year"]) ->
                  cell_isnull (cell_at (clean_row (nth 3 sample_dataset ∅)) name) = false).
Proof.
  apply (processor_never_drops_row sample_dataset sample_cleaned sample_kept).
  - apply returned_ok. vm_compute. reflexivity.
  - apply returned_ok. vm_compute. reflexivity.
  - apply nth_In. unfold sample_dataset. cbn [length]. lia.
Defined.

(** The text of a [CustomException] always holds the message it was
    built with: alone without [error_detail], and inside the text that
    names the file and the line with it.  Built with [error_detail]
    while no exception is being handled, the constructor itself raises
    an [AttributeError], and no [CustomException] exists. *)
Theorem CustomException_text (error_message : pystr) (error_detail : option exc_info) :
  match new_CustomException error_message error_detail with
  | Ok e =>
    is_substring error_message (exc_str e) /\
    (error_detail = None -> exc_str e = error_message) /\
    (forall file_name line_number,
        error_detail = Some (Some (file_name, line_number)) ->
        is_substring file_name (exc_str e) /\
        is_substring (int_str line_number) (exc_str e))
  | Raise e =>
    error_detail = Some None /\
    e = AttributeError (str "NoneType") (str "tb_frame")
  end.
Proof.
  unfold new_CustomException, error_message_details.
  destruct error_detail as [[[file_name line_number]|]|]; cbn [exc_str].
  - split; [|split; [discriminate|]].
    + exists (str "Error occurred in Python script: [" ++ file_name ++
              str "] line number: [" ++ int_str line_number ++
              str "] error message: ["), (str "]").
      rewrite <- !app_assoc. reflexivity.
    + intros f l [= <- <-]. split.
      * exists (str "Error occurred in Python script: ["),
               (str "] line number: [" ++ int_str line_number ++
                str "] error message: [" ++ error_message ++ str "]").
        reflexivity.
      * exists (str "Error occurred in Python script: [" ++ file_name ++
                str "] line number: ["),
               (str "] error message: [" ++ error_message ++ str "]").
        rewrite <- !app_assoc. reflexivity.
  - split; reflexivity.
  - split; [exists [], []; rewrite app_nil_r; reflexivity|].
    split; [reflexivity|discriminate].
Qed.
